(** * WorkOutApi: the athlete controller

    A shallow embedding of [WorkOutApi/atleta/controller.py] and of the
    schema base classes of [WorkOutApi/contrib/schemas.py], with the
    properties of the service stated over it.

    Python objects are dynamic: a pydantic model instance and a mapped
    row are both modelled as finite maps from attribute names to values,
    so that [model_dump], keyword construction and [setattr] read as they
    do in the source. *)

From Stdlib Require Import Floats ZArith Ascii String.
From stdpp Require Import gmap strings list.

Open Scope string_scope.
Open Scope list_scope.

(** ** Text: the two string tests the controller relies on *)

Module Text.

(** A Python [str] is a sequence of characters (code points). A text is
    kept here as the bytes of its UTF-8 encoding, and [chars] reads the
    characters back, so that a letter with an accent counts as one
    character, as it does for [in] and for LIKE. *)
Definition char := N.

Definition is_cont (b : N) : bool := ((128 <=? b) && (b <? 192))%N.

(** The length of the sequence a lead byte opens; 0 for a byte that
    opens none. *)
Definition seq_len (lead : N) : nat :=
  if ((192 <=? lead) && (lead <? 224))%N then 2
  else if ((224 <=? lead) && (lead <? 240))%N then 3
  else if ((240 <=? lead) && (lead <? 248))%N then 4
  else 0.

Definition payload (lead : N) : N :=
  match seq_len lead with
  | 2 => (lead mod 32)%N
  | 3 => (lead mod 16)%N
  | _ => (lead mod 8)%N
  end.

Definition assemble (bytes : list N) : char :=
  match bytes with
  | [] => 0%N
  | lead :: rest => fold_left (λ acc b, acc * 64 + b mod 64)%N rest (payload lead)
  end.

(** A byte that belongs to no sequence is kept apart from every
    character, the way Python's [surrogateescape] does. *)
Definition escape (b : N) : char := (56320 + b)%N.

(** One byte more: the characters completed by it, and the bytes of the
    sequence still open. *)
Definition step (pending : list N) (b : N) : list char * list N :=
  let fresh :=
    if (b <? 128)%N then ([b], [])
    else match seq_len b with
         | O => ([escape b], [])
         | _ => ([], [b])
         end in
  match pending with
  | [] => fresh
  | lead :: _ =>
      if is_cont b then
        if Nat.eqb (length (pending ++ [b])) (seq_len lead)
        then ([assemble (pending ++ [b])], [])
        else ([], pending ++ [b])
      else (map escape pending ++ fresh.1, fresh.2)
  end.

Fixpoint decode (pending : list N) (bytes : list N) : list char :=
  match bytes with
  | [] => map escape pending
  | b :: bytes' => (step pending b).1 ++ decode (step pending b).2 bytes'
  end.

Definition chars (s : string) : list char :=
  decode [] (map N_of_ascii (list_ascii_of_string s)).

(** The lower case of every character, under a given folding. *)
Definition lower (lc : char → char) (s : list char) : list char := map lc s.

Fixpoint starts_with (p s : list char) : bool :=
  match p, s with
  | [], _ => true
  | _ :: _, [] => false
  | c :: p', x :: s' => N.eqb c x && starts_with p' s'
  end.

(** Python's [needle in hay] on strings. *)
Fixpoint contains (needle hay : list char) : bool :=
  starts_with needle hay ||
  match hay with
  | [] => false
  | _ :: hay' => contains needle hay'
  end.

Definition str_in (needle hay : string) : bool :=
  contains (chars needle) (chars hay).

(** The pattern language of SQL LIKE: [%] stands for any run of
    characters, [_] for any one character, and a backslash takes the
    next character literally. *)
Definition percent : char := 37%N.
Definition underscore : char := 95%N.
Definition backslash : char := 92%N.


(** ILIKE compares a character of the pattern with one of the column
    without regard to case: both are folded by [lc], the lower case of
    the database's locale. A pattern that ends in a lone backslash is
    refused by PostgreSQL; here it matches nothing. *)
Fixpoint like_match (lc : char → char) (p s : list char) {struct p} : bool :=
  match p with
  | [] => match s with [] => true | _ :: _ => false end
  | c :: p' =>
      if N.eqb c percent then
        (fix any_run (s : list char) : bool :=
           like_match lc p' s ||
           match s with
           | [] => false
           | _ :: s' => any_run s'
           end) s
      else if N.eqb c underscore then
        match s with
        | [] => false
        | _ :: s' => like_match lc p' s'
        end
      else if N.eqb c backslash then
        match p', s with
        | e :: p'', x :: s' => N.eqb (lc e) (lc x) && like_match lc p'' s'
        | _, _ => false
        end
      else
        match s with
        | [] => false
        | x :: s' => N.eqb (lc c) (lc x) && like_match lc p' s'
        end
  end.

(** [column ILIKE pattern]. *)
Definition ilike (lc : char → char) (column pattern : string) : bool :=
  like_match lc (chars pattern) (chars column).

(** The lower case of the letters A to Z and of the accented capitals
    of Latin-1 (À to Þ), which is what a Portuguese or English locale
    does on the names used below. *)
Definition latin1_lower (c : char) : char :=
  if ((65 <=? c) && (c <=? 90))%N then (c + 32)%N
  else if ((192 <=? c) && (c <=? 222) && negb (c =? 215))%N then (c + 32)%N
  else c.

End Text.

(** ** Python values *)

(** What a JSON body, a model instance, or a mapped row can hold.
    Identifiers are kept in their canonical text, time stamps as
    microseconds, floats as binary64. *)
#[warning="-register-all"] Inductive value :=
| VNone
| VStr (s : string)
| VInt (n : Z)
| VFloat (x : float)
| VUuid (u : string)
| VDatetime (t : Z)
| VObj (fields : gmap string value).

Abbreviation dict := (gmap string value).

(** What an f-string prints for the values this program formats. *)
Definition format (v : option value) : string :=
  match v with
  | Some (VStr s) => s
  | Some (VUuid u) => u
  | _ => "None"
  end.

(** Truth value of an [Optional[str]] in an [if]. *)
Definition truthy (o : option string) : bool :=
  match o with
  | Some s => negb (String.eqb s "")
  | None => false
  end.

(** ** Exceptions and results *)

Inductive exn :=
| HTTPException (status_code : Z) (detail : string)
| RequestValidationError
| ValidationError
| TypeError
| AttributeError
| IntegrityError (msg : string)
| DBAPIError (msg : string).

Inductive result (A : Type) :=
| Ok (a : A)
| Raise (e : exn).
Arguments Ok {A} a.
Arguments Raise {A} e.

Definition HTTP_200_OK : Z := 200.
Definition HTTP_204_NO_CONTENT : Z := 204.
Definition HTTP_303_SEE_OTHER : Z := 303.
Definition HTTP_400_BAD_REQUEST : Z := 400.
Definition HTTP_404_NOT_FOUND : Z := 404.
Definition HTTP_422_UNPROCESSABLE_ENTITY : Z := 422.
Definition HTTP_500_INTERNAL_SERVER_ERROR : Z := 500.

(** The status the framework answers with: the route's own code on a
    return, the code of a raised [HTTPException], 422 for a body that
    fails validation, 500 for anything left uncaught. *)
Definition status {A} (success : Z) (r : result A) : Z :=
  match r with
  | Ok _ => success
  | Raise (HTTPException code _) => code
  | Raise RequestValidationError => HTTP_422_UNPROCESSABLE_ENTITY
  | Raise _ => HTTP_500_INTERNAL_SERVER_ERROR
  end.

(** ** Schemas (contrib/schemas.py) *)

Inductive Extra := Forbid | Ignore.

Record Config := { extra : Extra; from_attributes : bool }.

Inductive scalar := TStr | TFloat | TUuid | TDatetime.

(** A field holds a scalar or a nested model whose fields are scalars. *)
Inductive annotation :=
| Scalar (t : scalar)
| Model (fields : list (string * scalar)).

Record FieldInfo := {
  annot : annotation;
  nullable : bool;
  required : bool
}.

Definition schema := list (string * FieldInfo).

Definition field (t : scalar) : FieldInfo :=
  {| annot := Scalar t; nullable := false; required := true |}.
Definition nested (fs : list (string * scalar)) : FieldInfo :=
  {| annot := Model fs; nullable := false; required := true |}.
Definition optional (f : FieldInfo) : FieldInfo :=
  {| annot := annot f; nullable := true; required := false |}.

Definition field_names (sch : schema) : gset string := list_to_set sch.*1.

Module BaseSchemas.
Definition Config : Config := {| extra := Forbid; from_attributes := true |}.
End BaseSchemas.

Definition OutMixin : schema :=
  [ ("id", field TUuid);
    ("creat_at", field TDatetime) ].

Definition is_hex (c : ascii) : bool :=
  let n := N_of_ascii c in
  (((48 <=? n) && (n <=? 57)) || ((97 <=? n) && (n <=? 102)))%N.

(** [UUID4]: a UUID whose version is 4, read off its canonical text, as
    in [xxxxxxxx-xxxx-4xxx-yxxx-xxxxxxxxxxxx] with [y] one of 8, 9, a, b. *)
Definition is_uuid4 (u : string) : bool :=
  let cs := list_ascii_of_string u in
  Nat.eqb (length cs) 36 &&
  forallb (λ ic : nat * ascii,
             let (i, c) := ic in
             if (Nat.eqb i 8 || Nat.eqb i 13 || Nat.eqb i 18 || Nat.eqb i 23)%bool
             then Ascii.eqb c "-"
             else if Nat.eqb i 14 then Ascii.eqb c "4"
             else if Nat.eqb i 19
                  then (Ascii.eqb c "8" || Ascii.eqb c "9" ||
                        Ascii.eqb c "a" || Ascii.eqb c "b")%bool
                  else is_hex c)
          (imap pair cs).

(** Whether a value is of the type a field is annotated with. *)
Definition check_scalar (t : scalar) (v : value) : bool :=
  match t, v with
  | TStr, VStr _ => true
  | TFloat, VFloat _ => true
  | TUuid, VUuid u => is_uuid4 u
  | TDatetime, VDatetime _ => true
  | _, _ => false
  end.

(** A nested model is a [BaseSchemas] too: every field required, none
    beyond the declared ones. *)
Definition check_model (cfg : Config) (fs : list (string * scalar)) (d : dict) : bool :=
  match extra cfg with
  | Forbid => bool_decide (dom d ⊆ list_to_set fs.*1)
  | Ignore => true
  end &&
  forallb (λ kt : string * scalar,
             match d !! kt.1 with
             | Some v => check_scalar kt.2 v
             | None => false
             end) fs.

Definition check_field (cfg : Config) (f : FieldInfo) (v : value) : bool :=
  match v with
  | VNone => nullable f
  | _ =>
      match annot f, v with
      | Scalar t, _ => check_scalar t v
      | Model fs, VObj d => check_model cfg fs d
      | Model _, _ => false
      end
  end.

(** Reads the declared fields one by one through [get]: a present value
    must fit its annotation, an absent one must not be required. The
    result holds the fields that were set. *)
Fixpoint read_fields (cfg : Config) (sch : schema) (get : string → option value)
  : option dict :=
  match sch with
  | [] => Some ∅
  | (k, f) :: sch' =>
      match read_fields cfg sch' get with
      | None => None
      | Some d =>
          match get k with
          | Some v => if check_field cfg f v then Some (<[k:=v]> d) else None
          | None => if required f then None else Some d
          end
      end
  end.

(** Validation of a dictionary whose values are Python objects, as in
    keyword construction from [uuid4()], [datetime.now()] and a dumped
    instance: undeclared keys are refused under [extra='forbid'], a
    value of its field's type is taken as it is, and any other value is
    refused. What pydantic does before that to the values of a request
    body is [convert_body], below. *)
Definition model_validate (cfg : Config) (sch : schema) (d : dict) : result dict :=
  match extra cfg with
  | Forbid =>
      if bool_decide (dom d ⊆ field_names sch) then
        match read_fields cfg sch (λ k, d !! k) with
        | Some inst => Ok inst
        | None => Raise ValidationError
        end
      else Raise ValidationError
  | Ignore =>
      match read_fields cfg sch (λ k, d !! k) with
      | Some inst => Ok inst
      | None => Raise ValidationError
      end
  end.

(** [Schema.model_validate(obj)] on an object that is not a dictionary:
    allowed by [from_attributes], the fields are read with [getattr].
    The attributes of a mapped row come typed by their columns. *)
Definition model_validate_obj (cfg : Config) (sch : schema)
    (getattr : string → option value) : result dict :=
  if from_attributes cfg then
    match read_fields cfg sch getattr with
    | Some inst => Ok inst
    | None => Raise ValidationError
    end
  else Raise ValidationError.

(** Fields left unset are dumped with their default, [None]. *)
Definition defaults (sch : schema) : dict :=
  list_to_map ((λ kf : string * FieldInfo, (kf.1, VNone)) <$>
               filter (λ kf : string * FieldInfo, required kf.2 = false) sch).

Definition model_dump (sch : schema) (inst : dict) : dict := inst ∪ defaults sch.

Definition model_dump_exclude (exclude : gset string) (sch : schema) (inst : dict) : dict :=
  filter (λ kv : string * value, kv.1 ∉ exclude) (model_dump sch inst).

Definition model_dump_exclude_unset (inst : dict) : dict := inst.

(** pydantic validates in lax mode: a value that is not of its field's
    type is first converted to it where pydantic's conversion table has
    an entry (an integer given for a float field becomes that float, a
    text given for a UUID field is parsed), and only then tested. The
    table is pydantic's own; [convert] stands for it, and whatever it
    leaves unconverted fails the test of its type afterwards. [None] is
    never converted. *)
Definition convert_model (convert : scalar → value → value)
    (fs : list (string * scalar)) (d : dict) : dict :=
  map_imap (λ k v,
              Some match (list_to_map fs : gmap string scalar) !! k with
                   | Some t => match v with VNone => VNone | _ => convert t v end
                   | None => v
                   end) d.

Definition convert_field (convert : scalar → value → value)
    (f : FieldInfo) (v : value) : value :=
  match v with
  | VNone => VNone
  | _ =>
      match annot f, v with
      | Scalar t, _ => convert t v
      | Model fs, VObj d => VObj (convert_model convert fs d)
      | Model _, _ => v
      end
  end.

Definition convert_body (convert : scalar → value → value)
    (sch : schema) (body : dict) : dict :=
  map_imap (λ k v,
              Some match (list_to_map sch : gmap string FieldInfo) !! k with
                   | Some f => convert_field convert f v
                   | None => v
                   end) body.

(** The entry of the table that JSON numbers need: an integer given for
    a float field. Integers are taken up to 2^53, where the float is
    exact. *)
Definition float_of_Z (n : Z) : float :=
  match n with
  | Z0 => 0%float
  | Zpos p => PrimFloat.of_uint63 (Uint63.of_pos p)
  | Zneg p => PrimFloat.opp (PrimFloat.of_uint63 (Uint63.of_pos p))
  end.

Definition lax (t : scalar) (v : value) : value :=
  match t, v with
  | TFloat, VInt n =>
      if (Z.abs n <=? 9007199254740992)%Z then VFloat (float_of_Z n) else v
  | _, _ => v
  end.

(** [Schema(k1=v1, ..., **rest)]: a keyword given twice is a [TypeError]. *)
Definition keywords (explicit : list (string * value)) (rest : dict) : result dict :=
  if existsb (λ kv : string * value, bool_decide (is_Some (rest !! kv.1))) explicit
  then Raise TypeError
  else Ok (list_to_map explicit ∪ rest).

(** ** The athlete schemas *)

(** Modelled from the spec: the module [WorkOutApi/atleta/schemas.py],
    which declares the athlete schemas, is missing. The spec gives the
    input record as name, cpf, weight, height, sex, category name and
    training-center name. The controller shows how the source spells
    three of them: [nome], [categoria] and [centro_treinamento], the
    last two being objects with a [nome]; the others keep the spec's
    words. *)
Definition Atleta : schema :=
  [ ("nome", field TStr);
    ("cpf", field TStr);
    ("weight", field TFloat);
    ("height", field TFloat);
    ("sex", field TStr);
    ("categoria", nested [("nome", TStr)]);
    ("centro_treinamento", nested [("nome", TStr)]) ].

(** Modelled from the spec: the input of create, every field required. *)
Definition AtletaIn : schema := Atleta.

(** Modelled from the spec: the response record, the athlete's fields
    with those of [OutMixin]. *)
Definition AtletaOut : schema := Atleta ++ OutMixin.

(** Modelled from the spec: the sparse input of update, any field of the
    athlete but neither id nor the creation time, each one optional. *)
Definition AtletaUpdate : schema :=
  (λ kf : string * FieldInfo, (kf.1, optional kf.2)) <$> Atleta.

(** ** The store *)

(** Modelled from the spec: the model classes of the two reference
    tables are missing. The spec has a category and a training center
    identified by a unique name and an internal numeric key; the
    controller reads them as [nome] and [pk_id]. *)
Record NamedRow := { pk_id : Z; nome : string }.

Definition CategoriaModel := NamedRow.
Definition CentroTreinamentoModel := NamedRow.

(** What a commit can raise: SQLAlchemy's [DBAPIError], of which
    [IntegrityError] is the subclass that [post] catches. *)
Inductive StorageError :=
| Integrity (msg : string)
| NotIntegrity (msg : string).

Definition dbapi (e : StorageError) : exn :=
  match e with
  | Integrity msg => IntegrityError msg
  | NotIntegrity msg => DBAPIError msg
  end.

(** Modelled from the spec: the three tables of the persisted state. A
    row of the athletes table is the attribute dictionary of its
    [AtletaModel] object; the rows are kept in insertion order.

    The database server is PostgreSQL ([DB_URL] in configs/settings.py),
    and two things it decides are part of the state as well. [rejects]
    is what the server, or the driver on the way to it, raises at the
    commit of a row for a reason other than the cpf: a text the driver
    cannot send, a null in a column that takes none, a lost connection
    (the spec's unclassified storage error); [None] when there is no
    such reason. [lc_ctype] is the lower case of a character in the
    locale of the database, which ILIKE folds by. *)
Record Database := {
  categorias : list CategoriaModel;
  centros_treinamento : list CentroTreinamentoModel;
  atletas : list dict;
  rejects : dict → option StorageError;
  lc_ctype : Text.char → Text.char
}.

Definition with_atletas (db : Database) (rows : list dict) : Database :=
  {| categorias := categorias db;
     centros_treinamento := centros_treinamento db;
     atletas := rows;
     rejects := rejects db;
     lc_ctype := lc_ctype db |}.

Definition id_of (row : dict) : option string :=
  match row !! "id" with
  | Some (VUuid u) => Some u
  | _ => None
  end.

Definition cpf_of (row : dict) : option string :=
  match row !! "cpf" with
  | Some (VStr c) => Some c
  | _ => None
  end.

(** Modelled from the spec: the module [WorkOutApi/atleta/models.py],
    which declares the constraints of the athletes table, is missing.
    The spec has cpf unique across all athletes, enforced by the store;
    a null cpf collides with nothing. *)
Definition violates_unique_cpf (rows : list dict) (row : dict) : bool :=
  match cpf_of row with
  | Some c => bool_decide (Exists (λ r, cpf_of r = Some c) rows)
  | None => false
  end.

(** What PostgreSQL reports for a unique violation, as [str(e)] shows it. *)
Definition unique_violation : string :=
  "duplicate key value violates unique constraint atletas_cpf_key".

(** ** Handlers run against a session: state and exceptions *)

Definition M (A : Type) : Type := Database → result A * Database.

#[export] Instance M_ret : MRet M := λ A a db, (Ok a, db).

#[export] Instance M_bind : MBind M := λ A B f m db,
  match m db with
  | (Ok a, db') => f a db'
  | (Raise e, db') => (Raise e, db')
  end.

Definition raise {A} (e : exn) : M A := λ db, (Raise e, db).

Definition lift {A} (r : result A) : M A := λ db, (r, db).

Definition session : M Database := λ db, (Ok db, db).

(** [try: body except: handler]; a handler that does not name the
    exception lets it through. *)
Definition try_except {A} (body : M A) (handler : exn → option (M A)) : M A :=
  λ db,
    match body db with
    | (Ok a, db') => (Ok a, db')
    | (Raise e, db') =>
        match handler e with
        | Some h => h db'
        | None => (Raise e, db')
        end
    end.

(** [select(Model).filter_by(nome=...)] then [.scalars().first()]. *)
Definition first_by_nome (table : list NamedRow) (name : string) : option NamedRow :=
  snd <$> list_find (λ r, nome r = name) table.

(** [select(AtletaModel).filter_by(id=id)] then [.scalars().first()]:
    the row and its place in the table. *)
Definition first_by_id (rows : list dict) (id : string) : option (nat * dict) :=
  list_find (λ r, id_of r = Some id) rows.

(** [db_session.add(row)] followed by [commit()]: the INSERT fails for
    whatever the store holds against the row, the uniqueness of cpf
    being tested when the row is entered in its index. *)
Definition add_commit (row : dict) : M unit := λ db,
  match rejects db row with
  | Some e => (Raise (dbapi e), db)
  | None =>
      if violates_unique_cpf (atletas db) row
      then (Raise (IntegrityError unique_violation), db)
      else (Ok tt, with_atletas db (atletas db ++ [row]))
  end.

(** [commit()] of the attributes set on the row at place [i]; with no
    attribute set there is no UPDATE to send. *)
Definition update_commit (i : nat) (changes : dict) (row : dict) : M unit := λ db,
  if bool_decide (dom changes = ∅) then (Ok tt, db)
  else
    match rejects db row with
    | Some e => (Raise (dbapi e), db)
    | None =>
        if violates_unique_cpf (delete i (atletas db)) row
        then (Raise (IntegrityError unique_violation), db)
        else (Ok tt, with_atletas db (<[i:=row]> (atletas db)))
    end.

(** [db_session.delete(row)] followed by [commit()]. *)
Definition delete_commit (i : nat) : M unit := λ db,
  (Ok tt, with_atletas db (delete i (atletas db))).

(** [db_session.refresh(row)]: the row as the store holds it now. *)
Definition refresh (i : nat) : M dict := λ db,
  match atletas db !! i with
  | Some row => (Ok row, db)
  | None => (Raise AttributeError, db)
  end.

(** The related row of a relationship, as the nested output model reads
    it; [None] when the foreign key points at nothing. *)
Definition relationship (table : list NamedRow) (fk : option value) : option value :=
  match fk with
  | Some (VInt k) =>
      match list_find (λ r, pk_id r = k) table with
      | Some (_, r) => Some (VObj {[ "nome" := VStr (nome r) ]})
      | None => Some VNone
      end
  | _ => Some VNone
  end.

(** [getattr] on a loaded [AtletaModel]: the two relationships go through
    their foreign keys, every other name is a plain attribute. *)
Definition getattr (db : Database) (row : dict) (name : string) : option value :=
  if String.eqb name "categoria" then
    relationship (categorias db) (row !! "categoria_id")
  else if String.eqb name "centro_treinamento" then
    relationship (centros_treinamento db) (row !! "centro_treinamento_id")
  else row !! name.

(** The foreign key behind a relationship of [AtletaModel]: [post]
    fills [categoria_id] and [centro_treinamento_id] and keeps
    [categoria] and [centro_treinamento] out of the row's keywords,
    which the response then reads from the row as objects. *)
Definition foreign_key (name : string) : option string :=
  if String.eqb name "categoria" then Some "categoria_id"
  else if String.eqb name "centro_treinamento" then Some "centro_treinamento_id"
  else None.

(** [setattr] on a loaded [AtletaModel]. A relationship takes a mapped
    object or [None]: [None] empties the foreign key, and anything
    else, the dictionary of a dumped sub-object included, is refused
    with an [AttributeError] (it has no instance state). Every other
    name is a plain attribute. *)
Definition setattr (obj : dict) (name : string) (v : value) : result dict :=
  match foreign_key name with
  | Some fk =>
      match v with
      | VNone => Ok (<[fk:=VNone]> obj)
      | _ => Raise AttributeError
      end
  | None => Ok (<[name:=v]> obj)
  end.

(** [for key, value in items.items(): setattr(obj, key, value)]. *)
Definition setattr_items (obj : dict) (items : dict) : result dict :=
  map_fold (λ key value acc,
              match acc with
              | Ok obj => setattr obj key value
              | Raise e => Raise e
              end) (Ok obj) items.

(** [AtletaOut.model_validate(atleta)]. *)
Definition to_AtletaOut (row : dict) : M dict := λ db,
  (model_validate_obj BaseSchemas.Config AtletaOut (getattr db row), db).

(** [x.a.b] on model instances, for a [b] that holds text. *)
Definition attr2 (inst : dict) (a b : string) : result string :=
  match inst !! a with
  | Some (VObj o) =>
      match o !! b with
      | Some (VStr s) => Ok s
      | _ => Raise AttributeError
      end
  | _ => Raise AttributeError
  end.

Fixpoint for_each {A B} (f : A → M B) (l : list A) : M (list B) :=
  match l with
  | [] => mret []
  | x :: l' => y ← f x; ys ← for_each f l'; mret (y :: ys)
  end.

(** [Body(...)]: the framework validates the JSON body against the
    parameter's schema before the handler is called, in lax mode; the
    handler receives the converted instance. *)
Definition Body (convert : scalar → value → value) (sch : schema) (body : dict)
  : M dict := λ db,
  match model_validate BaseSchemas.Config sch (convert_body convert sch body) with
  | Ok inst => (Ok inst, db)
  | Raise _ => (Raise RequestValidationError, db)
  end.

(** ** The controller (atleta/controller.py) *)

(** [uuid4] and [now] stand for the values [uuid4()] and
    [datetime.now()] return during the call. *)
Definition post (uuid4 : string) (now : Z) (atleta_in : dict) : M dict :=
  categoria_name ← lift (attr2 atleta_in "categoria" "nome");
  centro_treinamento_name ← lift (attr2 atleta_in "centro_treinamento" "nome");
  db ← session;
  match first_by_nome (categorias db) categoria_name with
  | None =>
      raise (HTTPException HTTP_400_BAD_REQUEST
               ("Categoria '" +:+ categoria_name +:+ "' não encontrada"))
  | Some categoria =>
      match first_by_nome (centros_treinamento db) centro_treinamento_name with
      | None =>
          raise (HTTPException HTTP_400_BAD_REQUEST
                   ("Centro de Treinamento '" +:+ centro_treinamento_name
                    +:+ "' não encontrado"))
      | Some centro_treinamento =>
          try_except
            (kw ← lift (keywords [("id", VUuid uuid4); ("creat_at", VDatetime now)]
                          (model_dump AtletaIn atleta_in));
             atleta_out ← lift (model_validate BaseSchemas.Config AtletaOut kw);
             let atleta_model :=
               model_dump_exclude {[ "categoria"; "centro_treinamento" ]}
                 AtletaOut atleta_out in
             let atleta_model :=
               <["categoria_id" := VInt (pk_id categoria)]> atleta_model in
             let atleta_model :=
               <["centro_treinamento_id" := VInt (pk_id centro_treinamento)]>
                 atleta_model in
             add_commit atleta_model;;
             mret atleta_out)
            (λ e,
               match e with
               | IntegrityError msg =>
                   Some
                     (if Text.str_in "duplicate key value violates unique constraint" msg
                      then
                        raise (HTTPException HTTP_303_SEE_OTHER
                                 ("Já existe um atleta cadastrado com o CPF: "
                                  +:+ format (atleta_in !! "cpf")))
                      else
                        raise (HTTPException HTTP_500_INTERNAL_SERVER_ERROR
                                 "Ocorreu um erro ao inserir o dado no banco"))
               | _ => None
               end)
      end
  end.

(** [AtletaModel.nome.ilike(pattern)] and [AtletaModel.cpf == cpf] as
    tests on a row; a null column satisfies neither. *)
Definition nome_ilike (lc : Text.char → Text.char) (pattern : string) (row : dict)
  : bool :=
  match row !! "nome" with
  | Some (VStr s) => Text.ilike lc s pattern
  | _ => false
  end.

Definition cpf_equals (cpf : string) (row : dict) : bool :=
  bool_decide (cpf_of row = Some cpf).

Definition select_atletas (lc : Text.char → Text.char) (nome cpf : option string)
    (rows : list dict) : list dict :=
  let query := rows in
  let query :=
    if truthy nome
    then List.filter (nome_ilike lc ("%" +:+ default "" nome +:+ "%")) query
    else query in
  let query :=
    if truthy cpf
    then List.filter (cpf_equals (default "" cpf)) query
    else query in
  query.

Definition query_all_atletas (nome cpf : option string) : M (list dict) :=
  db ← session;
  let atletas := select_atletas (lc_ctype db) nome cpf (atletas db) in
  for_each to_AtletaOut atletas.

Definition not_found (id : string) : exn :=
  HTTPException HTTP_404_NOT_FOUND ("Atleta não encontrado com o ID: " +:+ id).

Definition query_atleta_by_id (id : string) : M dict :=
  db ← session;
  match first_by_id (atletas db) id with
  | None => raise (not_found id)
  | Some (_, atleta) => to_AtletaOut atleta
  end.

Definition update_atleta (id : string) (atleta_up : dict) : M dict :=
  db ← session;
  match first_by_id (atletas db) id with
  | None => raise (not_found id)
  | Some (i, atleta) =>
      let atleta_update := model_dump_exclude_unset atleta_up in
      atleta ← lift (setattr_items atleta atleta_update);
      update_commit i atleta_update atleta;;
      atleta ← refresh i;
      to_AtletaOut atleta
  end.

Definition delete_atleta (id : string) : M unit :=
  db ← session;
  match first_by_id (atletas db) id with
  | None => raise (not_found id)
  | Some (i, _) => delete_commit i
  end.

(** The routes: body validation, then the handler. *)
Definition route_post (convert : scalar → value → value)
    (uuid4 : string) (now : Z) (body : dict) : M dict :=
  atleta_in ← Body convert AtletaIn body; post uuid4 now atleta_in.

Definition route_update_atleta (convert : scalar → value → value)
    (id : string) (body : dict) : M dict :=
  atleta_up ← Body convert AtletaUpdate body; update_atleta id atleta_up.

(** ** A small store to run the handlers on *)

(** A store that refuses a text with a NUL character in it (the driver
    cannot send one: a [DBAPIError]) and a null in a column of the
    athletes table (PostgreSQL's not-null violation). *)
Definition has_nul (v : value) : bool :=
  match v with
  | VStr s => existsb (λ c, Ascii.eqb c Ascii.zero) (list_ascii_of_string s)
  | _ => false
  end.

Definition is_null (v : value) : bool :=
  match v with
  | VNone => true
  | _ => false
  end.

Definition nul_or_null (row : dict) : option StorageError :=
  if existsb (λ kv : string * value, has_nul kv.2) (map_to_list row)
  then Some (NotIntegrity "invalid byte sequence for encoding UTF8: 0x00")
  else if existsb (λ kv : string * value, is_null kv.2) (map_to_list row)
  then Some (Integrity "null value in column violates not-null constraint")
  else None.

Definition db0 : Database :=
  {| categorias := [ {| pk_id := 1; nome := "Scale" |} ];
     centros_treinamento := [ {| pk_id := 7; nome := "CT King" |} ];
     atletas := [];
     rejects := nul_or_null;
     lc_ctype := Text.latin1_lower |}.

(** Identifiers as [uuid4()] draws them. *)
Definition uuid_ana : string := "a1a1a1a1-0000-4000-8000-000000000001".
Definition uuid_bruno : string := "b2b2b2b2-0000-4000-9000-000000000002".
Definition uuid_carla : string := "c3c3c3c3-0000-4000-a000-000000000003".
Definition uuid_x : string := "d4d4d4d4-0000-4000-b000-000000000004".

Definition named (n : string) : value := VObj {[ "nome" := VStr n ]}.

Definition body_of (name cpf categoria centro : string) : dict :=
  list_to_map
    [ ("nome", VStr name); ("cpf", VStr cpf);
      ("weight", VFloat 75.5%float); ("height", VFloat 1.75%float);
      ("sex", VStr "F");
      ("categoria", named categoria); ("centro_treinamento", named centro) ].

Definition ana : dict := body_of "Ana" "11111111111" "Scale" "CT King".
Definition bruno : dict := body_of "Bruno" "22222222222" "Scale" "CT King".

Definition run {A} (m : M A) (db : Database) : Database := (m db).2.

Definition db1 : Database := run (route_post lax uuid_ana 1000 ana) db0.
Definition db2 : Database := run (route_post lax uuid_bruno 2000 bruno) db1.

(** ** What the spec says the list operation matches *)

(** The name contains the filter, without regard to case, anywhere in
    the field; the cpf equals the filter; an absent filter restricts
    nothing. *)
Definition name_contains (lc : Text.char → Text.char) (nameFilter : string)
    (row : dict) : bool :=
  match row !! "nome" with
  | Some (VStr s) =>
      Text.contains (Text.lower lc (Text.chars nameFilter))
        (Text.lower lc (Text.chars s))
  | _ => false
  end.

Definition ListAthletes_matches (lc : Text.char → Text.char)
    (nameFilter cpfFilter : option string) (row : dict) : bool :=
  match nameFilter with
  | Some n => name_contains lc n row
  | None => true
  end &&
  match cpfFilter with
  | Some c => cpf_equals c row
  | None => true
  end.



(** ** Validation, taken apart *)

Definition field_ok (cfg : Config) (get : string → option value)
    (kf : string * FieldInfo) : bool :=
  match get kf.1 with
  | Some v => check_field cfg kf.2 v
  | None => negb (required kf.2)
  end.

Definition fields_ok (cfg : Config) (sch : schema) (get : string → option value) : bool :=
  forallb (field_ok cfg get) sch.

Definition collect (sch : schema) (get : string → option value) : dict :=
  foldr (λ (kf : string * FieldInfo) d,
           match get kf.1 with
           | Some v => <[kf.1:=v]> d
           | None => d
           end) ∅ sch.

(** An argument annotated with a schema holds an instance of it. *)
Definition instance_of (sch : schema) (inst : dict) : Prop :=
  ∃ body, model_validate BaseSchemas.Config sch body = Ok inst.

(** ** Names for the parts of [post] *)

Definition category_not_found (name : string) : exn :=
  HTTPException HTTP_400_BAD_REQUEST ("Categoria '" +:+ name +:+ "' não encontrada").

Definition training_center_not_found (name : string) : exn :=
  HTTPException HTTP_400_BAD_REQUEST
    ("Centro de Treinamento '" +:+ name +:+ "' não encontrado").

Definition duplicate_cpf (cpf : string) : exn :=
  HTTPException HTTP_303_SEE_OTHER
    ("Já existe um atleta cadastrado com o CPF: " +:+ cpf).

(** What [post] answers when the commit raises [e]: the two branches
    of [except IntegrityError], and any other exception let through. *)
Definition on_commit_error (atleta_in : dict) (e : exn) : exn :=
  match e with
  | IntegrityError msg =>
      if Text.str_in "duplicate key value violates unique constraint" msg
      then duplicate_cpf (format (atleta_in !! "cpf"))
      else HTTPException HTTP_500_INTERNAL_SERVER_ERROR
             "Ocorreu um erro ao inserir o dado no banco"
  | _ => e
  end.

Definition keywords_of (uuid4 : string) (now : Z) (atleta_in : dict) : result dict :=
  keywords [("id", VUuid uuid4); ("creat_at", VDatetime now)]
    (model_dump AtletaIn atleta_in).

Definition atleta_model_of (categoria centro_treinamento : NamedRow)
    (atleta_out : dict) : dict :=
  <["centro_treinamento_id" := VInt (pk_id centro_treinamento)]>
    (<["categoria_id" := VInt (pk_id categoria)]>
       (model_dump_exclude {[ "categoria"; "centro_treinamento" ]}
          AtletaOut atleta_out)).


(** ** Requests and claims at concrete inputs *)

Definition ana_out : dict :=
  <["id" := VUuid uuid_ana]> (<["creat_at" := VDatetime 1000]> ana).

(** The body of [ana] again, under a category that does not exist. *)
Definition ana_nope : dict := body_of "Ana" "11111111111" "Nope" "CT King".

(** The records the four answering operations can return on a store. *)
Definition is_response (db : Database) (out : dict) : Prop :=
  (∃ uuid4 now atleta_in db', post uuid4 now atleta_in db = (Ok out, db')) ∨
  (∃ id db', query_atleta_by_id id db = (Ok out, db')) ∨
  (∃ nome cpf outs db',
      query_all_atletas nome cpf db = (Ok outs, db') ∧ out ∈ outs) ∨
  (∃ id atleta_up db', update_atleta id atleta_up db = (Ok out, db')).

(** The response-shape property as the spec words it, for one field
    name: every response record carries it. *)
Definition responses_carry (name : string) (db : Database) : Prop :=
  ∀ out, is_response db out → is_Some (out !! name).

(** The uniqueness of cpf that the store maintains. *)
Definition cpf_unique (rows : list dict) : Prop :=
  ∀ i j r1 r2 c,
    rows !! i = Some r1 → rows !! j = Some r2 →
    cpf_of r1 = Some c → cpf_of r2 = Some c → i = j.

Definition bruno_row : dict := default ∅ (atletas db2 !! 1%nat).

Definition weight_only : dict := {[ "weight" := VFloat 80.5 ]}.
Definition to_category_nope : dict := {[ "categoria" := named "Nope" ]}.
Definition to_cpf_of_ana : dict := {[ "cpf" := VStr "11111111111" ]}.


(** The partial update as the spec words it: on an existing athlete,
    every field of the request is applied and every other one is kept. *)
Definition update_applies_request (db : Database) (id : string) (atleta_up : dict)
  : Prop :=
  ∀ i atleta,
    first_by_id (atletas db) id = Some (i, atleta) →
    ∃ atleta',
      atletas (run (update_atleta id atleta_up) db) !! i = Some atleta' ∧
      (∀ k v, atleta_up !! k = Some v → atleta' !! k = Some v) ∧
      (∀ k, atleta_up !! k = None → atleta' !! k = atleta !! k).

(** The list operation as the spec words it: the stored athletes that
    match both filters, each shaped as a response. *)
Definition ListAthletes (nameFilter cpfFilter : option string) : M (list dict) :=
  db ← session;
  for_each to_AtletaOut
    (List.filter (ListAthletes_matches (lc_ctype db) nameFilter cpfFilter)
       (atletas db)).


(** No two stored athletes carry the same identifier. *)
Definition id_unique (rows : list dict) : Prop :=
  ∀ i j r1 r2 u,
    rows !! i = Some r1 → rows !! j = Some r2 →
    id_of r1 = Some u → id_of r2 = Some u → i = j.

Definition ana_row : dict := default ∅ (atletas db2 !! 0%nat).

(** The records a listing answers with, none when it fails. *)
Definition listed (nome cpf : option string) (db : Database) : list dict :=
  match (query_all_atletas nome cpf db).1 with
  | Ok outs => outs
  | Raise _ => []
  end.

Definition ana_listed : dict := default ∅ (listed (Some "an") None db2 !! 0%nat).

(** Bruno after an update of his weight alone: the store and the answer. *)
Definition db2_weight : Database := run (update_atleta uuid_bruno weight_only) db2.

Definition bruno_updated : dict :=
  match (update_atleta uuid_bruno weight_only db2).1 with
  | Ok out => out
  | Raise _ => ∅
  end.

(** * Properties *)

(** ** LIKE patterns *)

Section Like.
Import Text.
Context (lc : char → char).














End Like.

(** ** Validation *)

Section Validation.
Context (cfg : Config).

Lemma read_fields_eq sch get :
  read_fields cfg sch get =
  if fields_ok cfg sch get then Some (collect sch get) else None.
Proof.
  induction sch as [|[k f] sch IH]; [reflexivity|].
  cbn [read_fields fields_ok forallb collect foldr]. rewrite IH.
  unfold field_ok, fields_ok. cbn [fst snd].
  destruct (forallb _ sch); destruct (get k) as [v|];
    [destruct (check_field cfg f v) | destruct (required f)
    |destruct (check_field cfg f v) | destruct (required f)]; reflexivity.
Qed.

Lemma collect_lookup (sch : schema) get k :
  collect sch get !! k = if decide (k ∈ sch.*1) then get k else None.
Proof.
  induction sch as [|[k0 f] sch IH]; cbn [collect foldr fmap list_fmap fst].
  - rewrite lookup_empty. case_decide as H; [|done]. by apply elem_of_nil in H.
  - fold (collect sch get). destruct (decide (k = k0)) as [->|Hne].
    + rewrite decide_True by apply list_elem_of_here.
      destruct (get k0) as [v|] eqn:Hg.
      * by rewrite lookup_insert_eq.
      * rewrite IH. by case_decide.
    + assert (collect sch get !! k = if decide (k ∈ k0 :: sch.*1) then get k else None)
        as Hk.
      { rewrite IH. destruct (decide (k ∈ sch.*1)) as [Hin|Hin].
        - rewrite decide_True; [done | by apply list_elem_of_further].
        - rewrite decide_False; [done|].
          intros [?|?]%elem_of_cons; done. }
      destruct (get k0); [rewrite lookup_insert_ne by done|]; exact Hk.
Qed.


Lemma fields_ok_app sch1 sch2 get :
  fields_ok cfg (sch1 ++ sch2) get = fields_ok cfg sch1 get && fields_ok cfg sch2 get.
Proof. apply forallb_app. Qed.

Lemma fields_ok_field (sch : schema) get k f :
  fields_ok cfg sch get = true → (k, f) ∈ sch → field_ok cfg get (k, f) = true.
Proof.
  unfold fields_ok. rewrite forallb_forall. intros H Hin.
  apply H. by apply list_elem_of_In.
Qed.

Lemma collect_dom (sch : schema) get :
  fields_ok cfg sch get = true →
  Forall (λ kf, required kf.2 = true) sch →
  dom (collect sch get) = field_names sch.
Proof.
  intros Hok Hreq. apply set_eq. intros k.
  rewrite elem_of_dom, collect_lookup. unfold field_names.
  rewrite elem_of_list_to_set. case_decide as Hk; [|split; [intros []|]; done].
  split; [done|]. intros _.
  apply list_elem_of_fmap in Hk as ([k' f] & -> & Hin). cbn [fst].
  pose proof (fields_ok_field _ _ _ _ Hok Hin) as Hf.
  rewrite Forall_forall in Hreq. specialize (Hreq _ Hin). cbn [snd] in Hreq.
  unfold field_ok in Hf. cbn [fst snd] in Hf.
  destruct (get k'); [eauto|]. rewrite Hreq in Hf. discriminate.
Qed.

End Validation.

Lemma model_validate_inv sch d inst :
  model_validate BaseSchemas.Config sch d = Ok inst →
  inst = d ∧ dom d ⊆ field_names sch ∧
  fields_ok BaseSchemas.Config sch (λ k, d !! k) = true.
Proof.
  unfold model_validate. cbn [extra BaseSchemas.Config].
  case_bool_decide as Hdom; [|discriminate].
  rewrite read_fields_eq.
  destruct (fields_ok _ _ _) eqn:Hok; [|discriminate].
  intros [= <-]. split_and!; [|done..].
  apply map_eq. intros k. rewrite collect_lookup. case_decide as Hk; [done|].
  symmetry. apply not_elem_of_dom. intros Hd. apply Hk.
  apply Hdom in Hd. unfold field_names in Hd. by apply elem_of_list_to_set in Hd.
Qed.


Lemma instance_of_inv sch inst :
  instance_of sch inst →
  dom inst ⊆ field_names sch ∧
  fields_ok BaseSchemas.Config sch (λ k, inst !! k) = true.
Proof.
  intros [body H]. apply model_validate_inv in H as (-> & ? & ?). done.
Qed.

(** Conversion touches values only: the keys of a body stay. *)
Lemma convert_body_keeps_keys convert sch (body : dict) k :
  is_Some (body !! k) → is_Some (convert_body convert sch body !! k).
Proof.
  intros [v Hv]. unfold convert_body. rewrite map_lookup_imap, Hv. cbn. eauto.
Qed.

(** A body with a key the schema does not declare is refused. *)
Lemma model_validate_extra sch d k :
  is_Some (d !! k) → k ∉ sch.*1 →
  model_validate BaseSchemas.Config sch d = Raise ValidationError.
Proof.
  intros Hk Hnot. unfold model_validate. cbn [extra BaseSchemas.Config].
  rewrite bool_decide_eq_false_2; [done|].
  intros Hdom. apply Hnot. apply elem_of_dom in Hk. apply Hdom in Hk.
  unfold field_names in Hk. by apply elem_of_list_to_set in Hk.
Qed.

(** ** The [setattr] loop *)

Lemma foreign_key_None k :
  foreign_key k = None ↔ k ≠ "categoria" ∧ k ≠ "centro_treinamento".
Proof.
  unfold foreign_key.
  destruct (String.eqb_spec k "categoria") as [->|H1]; [split; [done|tauto]|].
  destruct (String.eqb_spec k "centro_treinamento") as [->|H2]; [split; [done|tauto]|].
  tauto.
Qed.

Lemma setattr_items_empty obj : setattr_items obj ∅ = Ok obj.
Proof. unfold setattr_items. by rewrite map_fold_empty. Qed.

(** What the loop leaves: an [AttributeError] when a relationship is
    given anything but [None]; otherwise the plain attributes of the
    update written over the row, the relationships as they were, and a
    foreign key emptied when its relationship is given [None]. *)
Lemma setattr_items_spec obj items :
  match setattr_items obj items with
  | Raise e =>
      e = AttributeError ∧
      ∃ v, v ≠ VNone ∧
        (items !! "categoria" = Some v ∨ items !! "centro_treinamento" = Some v)
  | Ok row =>
      (∀ v, items !! "categoria" = Some v ∨ items !! "centro_treinamento" = Some v →
            v = VNone) ∧
      (∀ k, k ≠ "categoria" → k ≠ "centro_treinamento" →
            k ≠ "categoria_id" → k ≠ "centro_treinamento_id" →
            row !! k = (items ∪ obj) !! k) ∧
      row !! "categoria" = obj !! "categoria" ∧
      row !! "centro_treinamento" = obj !! "centro_treinamento" ∧
      (items !! "categoria_id" = None →
       row !! "categoria_id" =
       match items !! "categoria" with
       | Some _ => Some VNone
       | None => obj !! "categoria_id"
       end) ∧
      (items !! "centro_treinamento_id" = None →
       row !! "centro_treinamento_id" =
       match items !! "centro_treinamento" with
       | Some _ => Some VNone
       | None => obj !! "centro_treinamento_id"
       end)
  end.
Proof.
  unfold setattr_items.
  apply (map_fold_weak_ind (λ r m,
    match r with
    | Raise e =>
        e = AttributeError ∧
        ∃ v, v ≠ VNone ∧
          (m !! "categoria" = Some v ∨ m !! "centro_treinamento" = Some v)
    | Ok row =>
        (∀ v, m !! "categoria" = Some v ∨ m !! "centro_treinamento" = Some v →
              v = VNone) ∧
        (∀ k, k ≠ "categoria" → k ≠ "centro_treinamento" →
              k ≠ "categoria_id" → k ≠ "centro_treinamento_id" →
              row !! k = (m ∪ obj) !! k) ∧
        row !! "categoria" = obj !! "categoria" ∧
        row !! "centro_treinamento" = obj !! "centro_treinamento" ∧
        (m !! "categoria_id" = None →
         row !! "categoria_id" =
         match m !! "categoria" with
         | Some _ => Some VNone
         | None => obj !! "categoria_id"
         end) ∧
        (m !! "centro_treinamento_id" = None →
         row !! "centro_treinamento_id" =
         match m !! "centro_treinamento" with
         | Some _ => Some VNone
         | None => obj !! "centro_treinamento_id"
         end)
    end)).
  - split_and!; try done.
    + intros v [H|H]; by rewrite lookup_empty in H.
    + intros k _ _ _ _. by rewrite (left_id_L ∅ (∪)).
  - intros i x m r Hi Hr. destruct r as [row|e].
    + destruct Hr as (Hnone & Hplain & Hc & Hct & Hfc & Hfct).
      unfold setattr, foreign_key.
      destruct (String.eqb_spec i "categoria") as [->|Hi1].
      { destruct x; try (split; [done|]; eexists; split;
                         [|left; apply lookup_insert_eq]; done).
        split_and!.
        - intros v [H|H].
          + rewrite lookup_insert_eq in H. congruence.
          + rewrite lookup_insert_ne in H by done. apply Hnone. by right.
        - intros k H1 H2 H3 H4. rewrite lookup_insert_ne by done.
          rewrite Hplain by done.
          rewrite !lookup_union, !(lookup_insert_ne m "categoria" k) by done. done.
        - by rewrite lookup_insert_ne.
        - by rewrite lookup_insert_ne.
        - intros _. by rewrite !lookup_insert_eq.
        - rewrite !(lookup_insert_ne _ "categoria") by done.
          intros H. rewrite lookup_insert_ne by done. by apply Hfct. }
      destruct (String.eqb_spec i "centro_treinamento") as [->|Hi2].
      { destruct x; try (split; [done|]; eexists; split;
                         [|right; apply lookup_insert_eq]; done).
        split_and!.
        - intros v [H|H].
          + rewrite lookup_insert_ne in H by done. apply Hnone. by left.
          + rewrite lookup_insert_eq in H. congruence.
        - intros k H1 H2 H3 H4. rewrite lookup_insert_ne by done.
          rewrite Hplain by done.
          rewrite !lookup_union, !(lookup_insert_ne m "centro_treinamento" k) by done.
          done.
        - by rewrite lookup_insert_ne.
        - by rewrite lookup_insert_ne.
        - rewrite !(lookup_insert_ne _ "centro_treinamento") by done.
          intros H. rewrite lookup_insert_ne by done. by apply Hfc.
        - intros _. by rewrite !lookup_insert_eq. }
      split_and!.
      * intros v [H|H]; rewrite lookup_insert_ne in H by done; apply Hnone; auto.
      * intros k H1 H2 H3 H4. destruct (decide (k = i)) as [->|Hk].
        -- rewrite lookup_insert_eq, lookup_union, lookup_insert_eq.
           by destruct (obj !! i).
        -- rewrite lookup_insert_ne by done. rewrite Hplain by done.
           rewrite !lookup_union, (lookup_insert_ne m i k) by done. done.
      * by rewrite lookup_insert_ne.
      * by rewrite lookup_insert_ne.
      * intros H. apply lookup_insert_None in H as [H Hne].
        rewrite lookup_insert_ne by done.
        rewrite (lookup_insert_ne m i "categoria") by done. by apply Hfc.
      * intros H. apply lookup_insert_None in H as [H Hne].
        rewrite lookup_insert_ne by done.
        rewrite (lookup_insert_ne m i "centro_treinamento") by done. by apply Hfct.
    + destruct Hr as (-> & v & Hv & H). split; [done|]. exists v. split; [done|].
      destruct H as [H|H]; [left|right];
        (rewrite lookup_insert_ne; [exact H | intros ->; congruence]).
Qed.


(** With neither relationship in it, the update is written over the
    row as it is. *)
Lemma setattr_items_plain obj items :
  items !! "categoria" = None → items !! "centro_treinamento" = None →
  setattr_items obj items = Ok (items ∪ obj).
Proof.
  unfold setattr_items.
  apply (map_fold_weak_ind (λ r m,
    m !! "categoria" = None → m !! "centro_treinamento" = None →
    r = Ok (m ∪ obj))).
  - intros _ _. by rewrite (left_id_L ∅ (∪)).
  - intros i x m r Hi IH H1 H2.
    apply lookup_insert_None in H1 as [H1 Hn1].
    apply lookup_insert_None in H2 as [H2 Hn2].
    rewrite (IH H1 H2). unfold setattr.
    assert (foreign_key i = None) as -> by (by apply foreign_key_None).
    by rewrite insert_union_l.
Qed.

(** A dumped sub-object given for a relationship stops the loop. *)
Lemma setattr_items_object obj items o :
  items !! "categoria" = Some (VObj o) ∨ items !! "centro_treinamento" = Some (VObj o) →
  setattr_items obj items = Raise AttributeError.
Proof.
  intros H. pose proof (setattr_items_spec obj items) as Hs.
  destruct (setattr_items obj items) as [row|e].
  - destruct Hs as (Hnone & _). by specialize (Hnone _ H).
  - by destruct Hs as (-> & _).
Qed.

(** ** The handlers, one equation each *)

Lemma unique_violation_is_duplicate_key :
  Text.str_in "duplicate key value violates unique constraint" unique_violation = true.
Proof. vm_compute. reflexivity. Qed.

Lemma model_validate_Raise cfg sch d e :
  model_validate cfg sch d = Raise e → e = ValidationError.
Proof.
  unfold model_validate. destruct (extra cfg); repeat case_match; congruence.
Qed.

Lemma post_eq uuid4 now atleta_in db :
  post uuid4 now atleta_in db =
  match attr2 atleta_in "categoria" "nome" with
  | Raise e => (Raise e, db)
  | Ok cat =>
    match attr2 atleta_in "centro_treinamento" "nome" with
    | Raise e => (Raise e, db)
    | Ok cen =>
      match first_by_nome (categorias db) cat with
      | None => (Raise (category_not_found cat), db)
      | Some categoria =>
        match first_by_nome (centros_treinamento db) cen with
        | None => (Raise (training_center_not_found cen), db)
        | Some centro =>
          match keywords_of uuid4 now atleta_in with
          | Raise _ => (Raise TypeError, db)
          | Ok kw =>
            match model_validate BaseSchemas.Config AtletaOut kw with
            | Raise _ => (Raise ValidationError, db)
            | Ok out =>
              match rejects db (atleta_model_of categoria centro out) with
              | Some e => (Raise (on_commit_error atleta_in (dbapi e)), db)
              | None =>
                if violates_unique_cpf (atletas db)
                     (atleta_model_of categoria centro out)
                then (Raise (duplicate_cpf (format (atleta_in !! "cpf"))), db)
                else (Ok out,
                      with_atletas db
                        (atletas db ++ [atleta_model_of categoria centro out]))
              end
            end
          end
        end
      end
    end
  end.
Proof.
  unfold post, mbind, M_bind, lift, session, raise, try_except, mret, M_ret.
  destruct (attr2 atleta_in "categoria" "nome") as [cat|e]; [|reflexivity].
  destruct (attr2 atleta_in "centro_treinamento" "nome") as [cen|e]; [|reflexivity].
  destruct (first_by_nome (categorias db) cat) as [categoria|]; [|reflexivity].
  destruct (first_by_nome (centros_treinamento db) cen) as [centro|]; [|reflexivity].
  unfold keywords_of, keywords.
  destruct (existsb _ _); [reflexivity|].
  destruct (model_validate _ _ _) as [out|e] eqn:Hv.
  - unfold add_commit. fold (atleta_model_of categoria centro out).
    destruct (rejects db _) as [e|].
    + unfold on_commit_error, duplicate_cpf.
      destruct e; cbn [dbapi]; try reflexivity. by destruct (Text.str_in _ msg).
    + destruct (violates_unique_cpf _ _); [|reflexivity].
      rewrite unique_violation_is_duplicate_key. reflexivity.
  - apply model_validate_Raise in Hv as ->. reflexivity.
Qed.

Lemma update_atleta_eq id atleta_up db :
  update_atleta id atleta_up db =
  match first_by_id (atletas db) id with
  | None => (Raise (not_found id), db)
  | Some (i, atleta) =>
      match setattr_items atleta atleta_up with
      | Raise e => (Raise e, db)
      | Ok row =>
          if bool_decide (dom atleta_up = ∅)
          then (model_validate_obj BaseSchemas.Config AtletaOut (getattr db atleta), db)
          else
            match rejects db row with
            | Some e => (Raise (dbapi e), db)
            | None =>
                if violates_unique_cpf (delete i (atletas db)) row
                then (Raise (IntegrityError unique_violation), db)
                else
                  let db' := with_atletas db (<[i:=row]> (atletas db)) in
                  (model_validate_obj BaseSchemas.Config AtletaOut (getattr db' row),
                   db')
            end
      end
  end.
Proof.
  unfold update_atleta, mbind, M_bind, session, raise, lift, model_dump_exclude_unset.
  destruct (first_by_id (atletas db) id) as [[i atleta]|] eqn:Hfind; [|reflexivity].
  apply list_find_Some in Hfind as (Hi & _ & _).
  destruct (setattr_items atleta atleta_up) as [row|e]; [|reflexivity].
  unfold update_commit. case_bool_decide as Hdom.
  - unfold refresh, to_AtletaOut. rewrite Hi.
    by destruct (model_validate_obj _ _ _).
  - destruct (rejects db row); [reflexivity|].
    destruct (violates_unique_cpf _ _); [reflexivity|].
    unfold refresh, to_AtletaOut. cbn [atletas with_atletas].
    rewrite list_lookup_insert_eq by (by eapply lookup_lt_Some).
    by destruct (model_validate_obj _ _ _).
Qed.


Lemma first_by_nome_Some (table : list NamedRow) name r :
  first_by_nome table name = Some r → r ∈ table ∧ nome r = name.
Proof.
  unfold first_by_nome. intros ([i r'] & H & ->)%fmap_Some.
  apply list_find_Some in H as (Hi & Hn & _).
  split; [by eapply list_elem_of_lookup_2 | done].
Qed.

Lemma first_by_id_None (rows : list dict) id :
  first_by_id rows id = None ↔ Forall (λ r, id_of r ≠ Some id) rows.
Proof. unfold first_by_id. apply list_find_None. Qed.

Lemma defaults_AtletaIn : defaults AtletaIn = ∅.
Proof. reflexivity. Qed.

Lemma defaults_AtletaOut : defaults AtletaOut = ∅.
Proof. reflexivity. Qed.

Lemma model_dump_AtletaIn inst : model_dump AtletaIn inst = inst.
Proof. unfold model_dump. by rewrite defaults_AtletaIn, (right_id_L ∅ (∪)). Qed.

(** The row that is stored agrees with the output record on every
    name but the two relationships and the two foreign keys. *)
Lemma atleta_model_of_lookup categoria centro out k :
  k ≠ "categoria" → k ≠ "centro_treinamento" →
  k ≠ "categoria_id" → k ≠ "centro_treinamento_id" →
  atleta_model_of categoria centro out !! k = out !! k.
Proof.
  intros H1 H2 H3 H4. unfold atleta_model_of.
  rewrite !lookup_insert_ne by done.
  unfold model_dump_exclude, model_dump.
  rewrite defaults_AtletaOut, (right_id_L ∅ (∪)).
  apply option_eq. intros v. rewrite map_lookup_filter_Some. cbn [fst].
  split; [by intros [? _] | intros ?; split; [done|]].
  intros [?%elem_of_singleton|?%elem_of_singleton]%elem_of_union; done.
Qed.

Lemma atleta_model_of_categoria_id categoria centro out :
  atleta_model_of categoria centro out !! "categoria_id" = Some (VInt (pk_id categoria)).
Proof.
  unfold atleta_model_of. rewrite lookup_insert_ne by done. apply lookup_insert_eq.
Qed.

Lemma atleta_model_of_centro_treinamento_id categoria centro out :
  atleta_model_of categoria centro out !! "centro_treinamento_id"
  = Some (VInt (pk_id centro)).
Proof. unfold atleta_model_of. apply lookup_insert_eq. Qed.

Lemma keywords_of_inv uuid4 now atleta_in kw :
  keywords_of uuid4 now atleta_in = Ok kw →
  kw = <["id" := VUuid uuid4]> (<["creat_at" := VDatetime now]> atleta_in) ∧
  atleta_in !! "id" = None ∧ atleta_in !! "creat_at" = None.
Proof.
  unfold keywords_of, keywords. rewrite model_dump_AtletaIn.
  cbn [existsb fst]. rewrite orb_false_r.
  destruct (atleta_in !! "id") as [v|] eqn:Hid.
  { rewrite bool_decide_eq_true_2 by eauto. discriminate. }
  destruct (atleta_in !! "creat_at") as [v|] eqn:Hc.
  { rewrite (bool_decide_eq_true_2 (is_Some (Some v))) by eauto.
    rewrite orb_true_r. discriminate. }
  rewrite !bool_decide_eq_false_2 by (intros [? ?]; discriminate).
  intros [= <-]. split; [|done].
  cbn [list_to_map foldr uncurry]. unfold uncurry. cbn [fst snd].
  rewrite <- !insert_union_l. by rewrite (left_id_L ∅ (∪)).
Qed.

(** ** Reference checks of create *)



(** ** Unknown identifiers *)

(** C6. For an identifier that no stored athlete carries, get, update and
    delete each fail with status 404 and a detail that names the
    identifier, and the store is left exactly as it was. *)
Theorem not_found_leaves_store db id atleta_up :
  Forall (λ r, id_of r ≠ Some id) (atletas db) →
  query_atleta_by_id id db
    = (Raise (HTTPException HTTP_404_NOT_FOUND
                ("Atleta não encontrado com o ID: " +:+ id)), db) ∧
  update_atleta id atleta_up db
    = (Raise (HTTPException HTTP_404_NOT_FOUND
                ("Atleta não encontrado com o ID: " +:+ id)), db) ∧
  delete_atleta id db
    = (Raise (HTTPException HTTP_404_NOT_FOUND
                ("Atleta não encontrado com o ID: " +:+ id)), db).
Proof.
  intros Hnone. apply first_by_id_None in Hnone.
  unfold query_atleta_by_id, update_atleta, delete_atleta, mbind, M_bind, session.
  rewrite Hnone. repeat split.
Qed.

Lemma not_found_leaves_store_witness :
  query_atleta_by_id uuid_carla db2
    = (Raise (HTTPException HTTP_404_NOT_FOUND
                ("Atleta não encontrado com o ID: " +:+ uuid_carla)), db2) ∧
  update_atleta uuid_carla {[ "weight" := VFloat 80.5 ]} db2
    = (Raise (HTTPException HTTP_404_NOT_FOUND
                ("Atleta não encontrado com o ID: " +:+ uuid_carla)), db2) ∧
  delete_atleta uuid_carla db2
    = (Raise (HTTPException HTTP_404_NOT_FOUND
                ("Atleta não encontrado com o ID: " +:+ uuid_carla)), db2).
Proof.
  apply (not_found_leaves_store db2 uuid_carla {[ "weight" := VFloat 80.5 ]}).
  apply (bool_decide_unpack _). vm_compute. exact I.
Defined.

(** ** Empty filters *)

(** C9. An empty string given as the name filter or as the cpf filter is
    skipped: the list operation answers as if that filter were absent,
    and with both filters empty it answers with every stored athlete. *)
Theorem empty_filter_is_skipped db (nome cpf : option string) :
  query_all_atletas (Some "") cpf db = query_all_atletas None cpf db ∧
  query_all_atletas nome (Some "") db = query_all_atletas nome None db ∧
  query_all_atletas (Some "") (Some "") db = for_each to_AtletaOut (atletas db) db.
Proof. repeat split. Qed.

(** ** Undeclared fields *)

(** C10. A create or update body that carries a field its input schema
    does not declare is refused by validation, with status 422: the
    handler does not run and the store is left as it was. *)
Theorem undeclared_field_refused convert db uuid4 now id body k :
  is_Some (body !! k) →
  (k ∉ AtletaIn.*1 →
     route_post convert uuid4 now body db = (Raise RequestValidationError, db)) ∧
  (k ∉ AtletaUpdate.*1 →
     route_update_atleta convert id body db = (Raise RequestValidationError, db)) ∧
  status HTTP_200_OK (Raise RequestValidationError : result dict)
    = HTTP_422_UNPROCESSABLE_ENTITY.
Proof.
  intros Hk. split_and!; [| |reflexivity]; intros Hno;
    unfold route_post, route_update_atleta, mbind, M_bind, Body;
    by rewrite (model_validate_extra _ _ k (convert_body_keeps_keys _ _ _ _ Hk) Hno).
Qed.

Lemma undeclared_field_refused_witness :
  route_post lax uuid_x 3000 (<["idade" := VInt 30]> ana) db2
    = (Raise RequestValidationError, db2) ∧
  route_update_atleta lax uuid_ana (<["idade" := VInt 30]> ∅) db1
    = (Raise RequestValidationError, db1).
Proof.
  split.
  - destruct (undeclared_field_refused lax db2 uuid_x 3000 uuid_ana
                (<["idade" := VInt 30]> ana) "idade") as (H & _ & _);
      [rewrite lookup_insert_eq; eauto|].
    apply H. compute_done.
  - destruct (undeclared_field_refused lax db1 uuid_x 3000 uuid_ana
                (<["idade" := VInt 30]> ∅) "idade") as (_ & H & _);
      [rewrite lookup_insert_eq; eauto|].
    apply H. compute_done.
Defined.

(** ** What a successful create did *)

Lemma post_Ok_inv uuid4 now atleta_in db out db' :
  post uuid4 now atleta_in db = (Ok out, db') →
  ∃ categoria centro,
    categoria ∈ categorias db ∧ centro ∈ centros_treinamento db ∧
    out = <["id" := VUuid uuid4]> (<["creat_at" := VDatetime now]> atleta_in) ∧
    atleta_in !! "id" = None ∧ atleta_in !! "creat_at" = None ∧
    dom out ⊆ field_names AtletaOut ∧
    fields_ok BaseSchemas.Config AtletaOut (λ k, out !! k) = true ∧
    (rejects db (atleta_model_of categoria centro out) = None ∧
     violates_unique_cpf (atletas db) (atleta_model_of categoria centro out) = false) ∧
    db' = with_atletas db (atletas db ++ [atleta_model_of categoria centro out]).
Proof.
  rewrite post_eq.
  destruct (attr2 atleta_in "categoria" "nome") as [cat|]; [|discriminate].
  destruct (attr2 atleta_in "centro_treinamento" "nome") as [cen|]; [|discriminate].
  destruct (first_by_nome (categorias db) cat) as [categoria|] eqn:Hc; [|discriminate].
  destruct (first_by_nome (centros_treinamento db) cen) as [centro|] eqn:Hct;
    [|discriminate].
  destruct (keywords_of uuid4 now atleta_in) as [kw|] eqn:Hkw; [|discriminate].
  destruct (model_validate BaseSchemas.Config AtletaOut kw) as [out'|] eqn:Hv;
    [|discriminate].
  destruct (rejects db _) eqn:Hr; [discriminate|].
  destruct (violates_unique_cpf _ _) eqn:Hu; [discriminate|].
  intros [= -> <-].
  apply keywords_of_inv in Hkw as (-> & Hid & Hcr).
  apply model_validate_inv in Hv as (-> & Hdom & Hok).
  apply first_by_nome_Some in Hc as [Hc _].
  apply first_by_nome_Some in Hct as [Hct _].
  exists categoria, centro. split_and!; done.
Qed.

Lemma post_Raise_inv uuid4 now atleta_in db e db' :
  post uuid4 now atleta_in db = (Raise e, db') → db' = db.
Proof.
  rewrite post_eq. repeat case_match; congruence.
Qed.

(** ** Reading a stored row back *)

Lemma getattr_plain db row k :
  k ≠ "categoria" → k ≠ "centro_treinamento" → getattr db row k = row !! k.
Proof.
  intros H1 H2. unfold getattr.
  apply String.eqb_neq in H1, H2. by rewrite H1, H2.
Qed.

Lemma relationship_found (table : list NamedRow) r :
  r ∈ table →
  ∃ r', relationship table (Some (VInt (pk_id r)))
        = Some (VObj {[ "nome" := VStr (nome r') ]}).
Proof.
  intros Hin. unfold relationship.
  destruct (list_find _ table) as [[i r']|] eqn:Hfind; [eauto|].
  apply list_find_None in Hfind. rewrite Forall_forall in Hfind.
  by destruct (Hfind r Hin).
Qed.

Lemma nested_nome_ok s :
  check_field BaseSchemas.Config (nested [("nome", TStr)])
    (VObj {[ "nome" := VStr s ]}) = true.
Proof.
  unfold check_field, check_model. cbn [annot nested extra BaseSchemas.Config].
  cbn [forallb fst snd]. rewrite lookup_singleton_eq. cbn [check_scalar].
  rewrite bool_decide_eq_true_2; [reflexivity|].
  rewrite dom_singleton_L. cbn. set_solver.
Qed.

Lemma stored_row_fields_ok db categoria centro out :
  categoria ∈ categorias db → centro ∈ centros_treinamento db →
  fields_ok BaseSchemas.Config AtletaOut (λ k, out !! k) = true →
  fields_ok BaseSchemas.Config AtletaOut
    (getattr db (atleta_model_of categoria centro out)) = true.
Proof.
  intros Hc Hct Hok. unfold fields_ok. apply forallb_forall.
  intros [k f] Hin%list_elem_of_In.
  pose proof (fields_ok_field _ _ _ _ _ Hok Hin) as Hf.
  unfold AtletaOut, Atleta, OutMixin in Hin. cbn [app] in Hin.
  repeat (apply elem_of_cons in Hin as [Hin|Hin]; [injection Hin as -> ->|]);
    [..|by apply elem_of_nil in Hin];
    unfold field_ok in *; cbn [fst snd] in *;
    try (rewrite getattr_plain by done;
         rewrite atleta_model_of_lookup by done; exact Hf).
  - change (getattr db (atleta_model_of categoria centro out) "categoria")
      with (relationship (categorias db)
              (atleta_model_of categoria centro out !! "categoria_id")).
    rewrite atleta_model_of_categoria_id.
    destruct (relationship_found _ _ Hc) as [r' ->]. apply nested_nome_ok.
  - change (getattr db (atleta_model_of categoria centro out) "centro_treinamento")
      with (relationship (centros_treinamento db)
              (atleta_model_of categoria centro out !! "centro_treinamento_id")).
    rewrite atleta_model_of_centro_treinamento_id.
    destruct (relationship_found _ _ Hct) as [r' ->]. apply nested_nome_ok.
Qed.

Lemma first_by_id_last (rows : list dict) row id :
  first_by_id rows id = None → id_of row = Some id →
  first_by_id (rows ++ [row]) id = Some (length rows, row).
Proof.
  intros Hnone Hid. unfold first_by_id in *. apply list_find_app_Some.
  right. split_and!; [lia | done |].
  rewrite Nat.sub_diag. cbn. by rewrite decide_True.
Qed.

(** C7. After a successful create, and with nothing in between, get by
    the returned identifier succeeds, leaves the store as it is, and
    returns the record create returned in every field but the category
    and training-center objects. The identifier is the one [uuid4()]
    drew for the create: fresh, carried by no athlete stored before. *)
Theorem get_after_create db uuid4 now atleta_in out db' :
  first_by_id (atletas db) uuid4 = None →
  post uuid4 now atleta_in db = (Ok out, db') →
  ∃ got,
    query_atleta_by_id uuid4 db' = (Ok got, db') ∧
    ∀ k, k ≠ "categoria" → k ≠ "centro_treinamento" → got !! k = out !! k.
Proof.
  intros Hfresh Hpost.
  apply post_Ok_inv in Hpost
    as (categoria & centro & Hc & Hct & Hout & _ & _ & Hdom & Hok & _ & ->).
  set (row := atleta_model_of categoria centro out).
  assert (id_of row = Some uuid4) as Hid.
  { unfold id_of, row. rewrite atleta_model_of_lookup by done.
    rewrite Hout, lookup_insert_eq. reflexivity. }
  unfold query_atleta_by_id, mbind, M_bind, session. cbn [atletas with_atletas].
  rewrite (first_by_id_last _ _ _ Hfresh Hid).
  unfold to_AtletaOut, model_validate_obj. cbn [from_attributes BaseSchemas.Config].
  rewrite read_fields_eq.
  rewrite (stored_row_fields_ok _ categoria centro out) by done.
  eexists. split; [reflexivity|].
  intros k Hk1 Hk2. rewrite collect_lookup. case_decide as Hk.
  - rewrite getattr_plain by done. apply atleta_model_of_lookup; try done.
    + intros ->. revert Hk. compute_done.
    + intros ->. revert Hk. compute_done.
  - symmetry. apply not_elem_of_dom. intros Hd. apply Hk.
    apply Hdom in Hd. unfold field_names in Hd. by apply elem_of_list_to_set in Hd.
Qed.

Lemma get_after_create_witness :
  ∃ got,
    query_atleta_by_id uuid_ana db1 = (Ok got, db1) ∧
    ∀ k, k ≠ "categoria" → k ≠ "centro_treinamento" → got !! k = ana_out !! k.
Proof.
  apply (get_after_create db0 uuid_ana 1000 ana ana_out db1).
  - vm_compute. reflexivity.
  - vm_compute. reflexivity.
Defined.

(** ** Two creates with one cpf *)


Lemma not_field_None sch (inst : dict) k :
  dom inst ⊆ field_names sch → k ∉ sch.*1 → inst !! k = None.
Proof.
  intros Hdom Hk. apply not_elem_of_dom. intros Hd. apply Hk.
  apply Hdom in Hd. unfold field_names in Hd. by apply elem_of_list_to_set in Hd.
Qed.


Lemma cpf_of_stored categoria centro uuid4 now atleta_in :
  cpf_of (atleta_model_of categoria centro
            (<["id" := VUuid uuid4]> (<["creat_at" := VDatetime now]> atleta_in)))
  = cpf_of atleta_in.
Proof.
  unfold cpf_of. rewrite atleta_model_of_lookup by done.
  by rewrite !lookup_insert_ne by done.
Qed.

Lemma filter_cpf_none (rows : list dict) c :
  ¬ Exists (λ r, cpf_of r = Some c) rows → List.filter (cpf_equals c) rows = [].
Proof.
  induction rows as [|r rows IH]; [reflexivity|].
  intros Hno. cbn [List.filter]. unfold cpf_equals at 1.
  rewrite bool_decide_eq_false_2.
  - apply IH. intros H. apply Hno. by apply Exists_cons_tl.
  - intros H. apply Hno. by apply Exists_cons_hd.
Qed.





(** ** The shape of a response *)

Lemma collect_id sch (inst : dict) :
  dom inst ⊆ field_names sch → collect sch (λ k, inst !! k) = inst.
Proof.
  intros Hdom. apply map_eq. intros k. rewrite collect_lookup.
  case_decide as Hk; [done|]. symmetry. by eapply not_field_None.
Qed.

Lemma to_AtletaOut_inv row db out db' :
  to_AtletaOut row db = (Ok out, db') →
  db' = db ∧
  fields_ok BaseSchemas.Config AtletaOut (getattr db row) = true ∧
  out = collect AtletaOut (getattr db row).
Proof.
  unfold to_AtletaOut, model_validate_obj. cbn [from_attributes BaseSchemas.Config].
  rewrite read_fields_eq. destruct (fields_ok _ _ _); [|discriminate].
  by intros [= <- <-].
Qed.

Lemma to_AtletaOut_state row db : (to_AtletaOut row db).2 = db.
Proof. reflexivity. Qed.

Lemma for_each_to_AtletaOut_inv rows db outs db' :
  for_each to_AtletaOut rows db = (Ok outs, db') →
  db' = db ∧ Forall2 (λ row out, to_AtletaOut row db = (Ok out, db)) rows outs.
Proof.
  revert outs db'. induction rows as [|row rows IH]; intros outs db'.
  - cbn. intros [= <- <-]. split; [done | constructor].
  - cbn [for_each]. unfold mbind, M_bind at 1.
    destruct (to_AtletaOut row db) as [[out|e] db1] eqn:Hrow; [|discriminate].
    pose proof (to_AtletaOut_state row db) as Hst. rewrite Hrow in Hst.
    cbn [snd] in Hst. subst db1. unfold M_bind at 1.
    destruct (for_each to_AtletaOut rows db) as [[outs'|e] db2] eqn:Hrows;
      [|discriminate].
    destruct (IH outs' db2 eq_refl) as [-> Hall].
    cbn. intros [= <- <-]. split; [done|]. by constructor.
Qed.

Lemma AtletaOut_required : Forall (λ kf : string * FieldInfo, required kf.2 = true) AtletaOut.
Proof. repeat constructor. Qed.

Lemma AtletaOut_field_names :
  field_names AtletaOut
  = {[ "id"; "creat_at"; "nome"; "cpf"; "weight"; "height"; "sex";
       "categoria"; "centro_treinamento" ]}.
Proof. compute_done. Qed.

Lemma nested_is_object cfg fs v :
  check_field cfg (nested fs) v = true → ∃ o, v = VObj o.
Proof. destruct v; cbn; try discriminate. eauto. Qed.

Lemma datetime_is_datetime cfg v :
  check_field cfg (field TDatetime) v = true → ∃ t, v = VDatetime t.
Proof. destruct v; cbn; try discriminate. eauto. Qed.

Ltac in_schema :=
  unfold AtletaOut, AtletaIn, AtletaUpdate, Atleta, OutMixin; cbn [app];
  repeat first [apply list_elem_of_here | apply list_elem_of_further].

Lemma AtletaOut_shape get :
  fields_ok BaseSchemas.Config AtletaOut get = true →
  dom (collect AtletaOut get)
  = {[ "id"; "creat_at"; "nome"; "cpf"; "weight"; "height"; "sex";
       "categoria"; "centro_treinamento" ]} ∧
  (∃ t, collect AtletaOut get !! "creat_at" = Some (VDatetime t)) ∧
  collect AtletaOut get !! "created_at" = None ∧
  (∃ o, collect AtletaOut get !! "categoria" = Some (VObj o)) ∧
  (∃ o, collect AtletaOut get !! "centro_treinamento" = Some (VObj o)).
Proof.
  intros Hok. split_and!.
  - rewrite (collect_dom _ _ _ Hok AtletaOut_required). apply AtletaOut_field_names.
  - rewrite collect_lookup, decide_True by compute_done.
    assert (("creat_at", field TDatetime) ∈ AtletaOut) as Hin by in_schema.
    pose proof (fields_ok_field _ _ _ _ _ Hok Hin) as Hf.
    unfold field_ok in Hf. cbn [fst snd] in Hf.
    destruct (get "creat_at") as [v|]; [|discriminate].
    apply datetime_is_datetime in Hf as [t ->]. eauto.
  - rewrite collect_lookup, decide_False by compute_done. reflexivity.
  - rewrite collect_lookup, decide_True by compute_done.
    assert (("categoria", nested [("nome", TStr)]) ∈ AtletaOut) as Hin by in_schema.
    pose proof (fields_ok_field _ _ _ _ _ Hok Hin) as Hf.
    unfold field_ok in Hf. cbn [fst snd] in Hf.
    destruct (get "categoria") as [v|]; [|discriminate].
    apply nested_is_object in Hf as [o ->]. eauto.
  - rewrite collect_lookup, decide_True by compute_done.
    assert (("centro_treinamento", nested [("nome", TStr)]) ∈ AtletaOut) as Hin
      by in_schema.
    pose proof (fields_ok_field _ _ _ _ _ Hok Hin) as Hf.
    unfold field_ok in Hf. cbn [fst snd] in Hf.
    destruct (get "centro_treinamento") as [v|]; [|discriminate].
    apply nested_is_object in Hf as [o ->]. eauto.
Qed.

(** C8, as the code has it. Every record answered by create, get, list
    or update has exactly the fields id, creat_at, nome, cpf, weight,
    height, sex, categoria and centro_treinamento, the last two being
    objects. The creation time stamp is under the name creat_at, the
    spelling of [OutMixin]; no field is called created_at. *)
Theorem response_fields db out :
  is_response db out →
  dom out = {[ "id"; "creat_at"; "nome"; "cpf"; "weight"; "height"; "sex";
               "categoria"; "centro_treinamento" ]} ∧
  (∃ t, out !! "creat_at" = Some (VDatetime t)) ∧
  out !! "created_at" = None ∧
  (∃ o, out !! "categoria" = Some (VObj o)) ∧
  (∃ o, out !! "centro_treinamento" = Some (VObj o)).
Proof.
  intros [(uuid4 & now & atleta_in & db' & H)
         |[(id & db' & H)
          |[(nome & cpf & outs & db' & H & Hin)
           |(id & atleta_up & db' & H)]]].
  - apply post_Ok_inv in H as (_ & _ & _ & _ & _ & _ & _ & Hdom & Hok & _).
    rewrite <- (collect_id AtletaOut out Hdom). by apply AtletaOut_shape.
  - unfold query_atleta_by_id, mbind, M_bind, session in H.
    destruct (first_by_id (atletas db) id) as [[i atleta]|]; [|discriminate].
    apply to_AtletaOut_inv in H as (_ & Hok & ->). by apply AtletaOut_shape.
  - unfold query_all_atletas, mbind, M_bind, session in H.
    apply for_each_to_AtletaOut_inv in H as [_ Hall].
    apply list_elem_of_lookup in Hin as [j Hj].
    destruct (Forall2_lookup_r _ _ _ _ _ Hall Hj) as (row & _ & Hrow).
    apply to_AtletaOut_inv in Hrow as (_ & Hok & ->). by apply AtletaOut_shape.
  - rewrite update_atleta_eq in H.
    destruct (first_by_id (atletas db) id) as [[i atleta]|]; [|discriminate].
    destruct (setattr_items atleta atleta_up) as [row|]; [|discriminate].
    case_bool_decide.
    2:{ destruct (rejects db row); [discriminate|].
        destruct (violates_unique_cpf _ _); [discriminate|]. cbn zeta in H.
        unfold model_validate_obj in H.
        cbn [from_attributes BaseSchemas.Config] in H. rewrite read_fields_eq in H.
        destruct (fields_ok _ _ _) eqn:Hok; [|discriminate].
        injection H as <- _. by apply AtletaOut_shape. }
    unfold model_validate_obj in H.
    cbn [from_attributes BaseSchemas.Config] in H. rewrite read_fields_eq in H.
    destruct (fields_ok _ _ _) eqn:Hok; [|discriminate].
    injection H as <- _. by apply AtletaOut_shape.
Qed.

Lemma response_fields_witness :
  dom ana_out = {[ "id"; "creat_at"; "nome"; "cpf"; "weight"; "height"; "sex";
                   "categoria"; "centro_treinamento" ]} ∧
  (∃ t, ana_out !! "creat_at" = Some (VDatetime t)) ∧
  ana_out !! "created_at" = None ∧
  (∃ o, ana_out !! "categoria" = Some (VObj o)) ∧
  (∃ o, ana_out !! "centro_treinamento" = Some (VObj o)).
Proof.
  apply (response_fields db0 ana_out).
  left. exists uuid_ana, 1000%Z, ana, db1. vm_compute. reflexivity.
Defined.

Lemma created_at_counterexample : ¬ responses_carry "created_at" db0.
Proof.
  intros H. destruct (H ana_out) as [v Hv].
  - left. exists uuid_ana, 1000%Z, ana, db1. vm_compute. reflexivity.
  - vm_compute in Hv. discriminate Hv.
Qed.

(** ** Partial update *)

(** What an update of an existing athlete leaves at its place: the row
    as it was, or the row the loop built, once the store has taken it. *)
Lemma update_atleta_row db id atleta_up i atleta :
  first_by_id (atletas db) id = Some (i, atleta) →
  ∃ atleta',
    atletas (run (update_atleta id atleta_up) db) !! i = Some atleta' ∧
    (atleta' = atleta ∨
     setattr_items atleta atleta_up = Ok atleta' ∧
     rejects db atleta' = None ∧
     violates_unique_cpf (delete i (atletas db)) atleta' = false).
Proof.
  intros Hf. unfold run. rewrite update_atleta_eq, Hf.
  apply list_find_Some in Hf as (Hi & _ & _).
  destruct (setattr_items atleta atleta_up) as [row|e]; [|eauto].
  case_bool_decide; [eauto|].
  destruct (rejects db row) eqn:Hr; [eauto|].
  destruct (violates_unique_cpf _ _) eqn:Hv; [eauto|].
  exists row. split; [|by right]. cbn.
  apply list_lookup_insert_eq. by eapply lookup_lt_Some.
Qed.

(** The store after an update: as it was, or with the row the loop
    built at the athlete's place. *)
Lemma update_atleta_store db id atleta_up :
  run (update_atleta id atleta_up) db = db ∨
  ∃ i atleta row,
    first_by_id (atletas db) id = Some (i, atleta) ∧
    setattr_items atleta atleta_up = Ok row ∧
    rejects db row = None ∧
    violates_unique_cpf (delete i (atletas db)) row = false ∧
    update_atleta id atleta_up db
    = (model_validate_obj BaseSchemas.Config AtletaOut
         (getattr (with_atletas db (<[i:=row]> (atletas db))) row),
       with_atletas db (<[i:=row]> (atletas db))).
Proof.
  unfold run. rewrite update_atleta_eq.
  destruct (first_by_id (atletas db) id) as [[i atleta]|] eqn:Hf; [|by left].
  destruct (setattr_items atleta atleta_up) as [row|e] eqn:Hset; [|by left].
  case_bool_decide; [by left|].
  destruct (rejects db row) eqn:Hr; [by left|].
  destruct (violates_unique_cpf _ _) eqn:Hv; [by left|].
  right. exists i, atleta, row. done.
Qed.

(** A row that the store takes is stored. *)
Lemma update_atleta_stored db id atleta_up i atleta row :
  first_by_id (atletas db) id = Some (i, atleta) →
  setattr_items atleta atleta_up = Ok row →
  rejects db row = None →
  violates_unique_cpf (delete i (atletas db)) row = false →
  ∀ k v, atleta_up !! k = Some v →
         atletas (run (update_atleta id atleta_up) db) !! i = Some row.
Proof.
  intros Hf Hset Hr Hv k v Hk. unfold run. rewrite update_atleta_eq, Hf, Hset.
  rewrite bool_decide_eq_false_2.
  2:{ intros Hd. apply dom_empty_iff_L in Hd. subst atleta_up.
      by rewrite lookup_empty in Hk. }
  rewrite Hr, Hv. cbn.
  apply list_find_Some in Hf as (Hi & _ & _).
  apply list_lookup_insert_eq. by eapply lookup_lt_Some.
Qed.



(** The cpf the loop leaves is the one of the update over the row. *)
Lemma setattr_items_cpf obj items row :
  setattr_items obj items = Ok row → cpf_of row = cpf_of (items ∪ obj).
Proof.
  intros H. pose proof (setattr_items_spec obj items) as Hs. rewrite H in Hs.
  destruct Hs as (_ & Hplain & _). unfold cpf_of. by rewrite Hplain.
Qed.

Lemma violates_unique_cpf_ext (rows : list dict) row row' :
  cpf_of row = cpf_of row' →
  violates_unique_cpf rows row = violates_unique_cpf rows row'.
Proof. unfold violates_unique_cpf. by intros ->. Qed.

Lemma no_violation_same_cpf (rows : list dict) i atleta row :
  cpf_unique rows → rows !! i = Some atleta → cpf_of row = cpf_of atleta →
  violates_unique_cpf (delete i rows) row = false.
Proof.
  intros Huniq Hi Hsame. unfold violates_unique_cpf.
  destruct (cpf_of row) as [c|] eqn:Hc; [|done].
  apply bool_decide_eq_false_2. intros (r & Hin & Hr)%Exists_exists.
  apply list_elem_of_lookup in Hin as [j Hj].
  destruct (decide (j < i)) as [Hlt|Hge].
  - rewrite list_lookup_delete_lt in Hj by done.
    pose proof (Huniq j i r atleta c Hj Hi Hr (eq_sym Hsame)). lia.
  - rewrite list_lookup_delete_ge in Hj by lia.
    pose proof (Huniq (S j) i r atleta c Hj Hi Hr (eq_sym Hsame)). lia.
Qed.





(** C4, as the code has it. On an existing athlete, an update leaves
    every field the request omits as it was, a foreign key going with
    its category or training-center field, and id and creat_at among
    them since no request can carry those. A request without those two
    fields is applied when the store takes the row: it raises no error
    for it and the cpf, if one is supplied, is held by no other athlete.
    Every field of the request then holds the requested value, so a
    request with only a weight changes only the weight. When the
    request supplies the cpf of another athlete, or a category or
    training-center object, nothing is stored and the row stays as it
    was. *)
Theorem update_atleta_set_if_present db id atleta_up i atleta :
  instance_of AtletaUpdate atleta_up →
  first_by_id (atletas db) id = Some (i, atleta) →
  ∃ atleta',
    atletas (run (update_atleta id atleta_up) db) !! i = Some atleta' ∧
    (∀ k, atleta_up !! k = None →
          k ≠ "categoria_id" → k ≠ "centro_treinamento_id" →
          atleta' !! k = atleta !! k) ∧
    (atleta_up !! "categoria" = None →
     atleta' !! "categoria_id" = atleta !! "categoria_id") ∧
    (atleta_up !! "centro_treinamento" = None →
     atleta' !! "centro_treinamento_id" = atleta !! "centro_treinamento_id") ∧
    atleta' !! "id" = atleta !! "id" ∧
    atleta' !! "creat_at" = atleta !! "creat_at" ∧
    (atleta_up !! "categoria" = None → atleta_up !! "centro_treinamento" = None →
     rejects db (atleta_up ∪ atleta) = None →
     violates_unique_cpf (delete i (atletas db)) (atleta_up ∪ atleta) = false →
     ∀ k v, atleta_up !! k = Some v → atleta' !! k = Some v) ∧
    (atleta_up !! "categoria" = None → atleta_up !! "centro_treinamento" = None →
     rejects db (atleta_up ∪ atleta) = None →
     cpf_unique (atletas db) → atleta_up !! "cpf" = None →
     ∀ k v, atleta_up !! k = Some v → atleta' !! k = Some v) ∧
    (violates_unique_cpf (delete i (atletas db)) (atleta_up ∪ atleta) = true →
     atleta' = atleta) ∧
    (∀ o, atleta_up !! "categoria" = Some (VObj o) ∨
          atleta_up !! "centro_treinamento" = Some (VObj o) →
          atleta' = atleta).
Proof.
  intros [Hdom _]%instance_of_inv Hf.
  assert (atleta_up !! "id" = None) as Hk1
    by (eapply not_field_None; [exact Hdom | compute_done]).
  assert (atleta_up !! "creat_at" = None) as Hk2
    by (eapply not_field_None; [exact Hdom | compute_done]).
  assert (atleta_up !! "categoria_id" = None) as Hk3
    by (eapply not_field_None; [exact Hdom | compute_done]).
  assert (atleta_up !! "centro_treinamento_id" = None) as Hk4
    by (eapply not_field_None; [exact Hdom | compute_done]).
  assert (∀ k v, atleta_up !! k = Some v →
            atleta_up !! "categoria" = None → atleta_up !! "centro_treinamento" = None →
            rejects db (atleta_up ∪ atleta) = None →
            violates_unique_cpf (delete i (atletas db)) (atleta_up ∪ atleta) = false →
            atletas (run (update_atleta id atleta_up) db) !! i
            = Some (atleta_up ∪ atleta)) as Happlied.
  { intros k v Hk Hc Hct Hr Hv.
    by apply (update_atleta_stored db id atleta_up i atleta _ Hf
                (setattr_items_plain atleta atleta_up Hc Hct) Hr Hv k v). }
  assert (cpf_unique (atletas db) → atleta_up !! "cpf" = None →
          violates_unique_cpf (delete i (atletas db)) (atleta_up ∪ atleta) = false)
    as Haccept.
  { intros Huniq Hcpf. pose proof Hf as Hf'.
    apply list_find_Some in Hf' as (Hi & _ & _).
    apply (no_violation_same_cpf _ _ atleta _ Huniq Hi).
    unfold cpf_of. by rewrite lookup_union_r. }
  destruct (update_atleta_row db id atleta_up i atleta Hf)
    as (atleta' & Hrow & [->|(Hset & Hr & Hv)]).
  - exists atleta. split; [exact Hrow|]. split_and!; try done.
    + intros Hc Hct Hrej Hvio k v Hk.
      rewrite (Happlied k v Hk Hc Hct Hrej Hvio) in Hrow. injection Hrow as <-.
      apply lookup_union_Some_raw. by left.
    + intros Hc Hct Hrej Huniq Hcpf k v Hk.
      rewrite (Happlied k v Hk Hc Hct Hrej (Haccept Huniq Hcpf)) in Hrow.
      injection Hrow as <-. apply lookup_union_Some_raw. by left.
  - exists atleta'. split; [exact Hrow|].
    pose proof (setattr_items_spec atleta atleta_up) as Hs. rewrite Hset in Hs.
    destruct Hs as (Hnone & Hplain & Hrc & Hrct & Hfc & Hfct).
    assert (∀ k, atleta_up !! k = None →
              k ≠ "categoria_id" → k ≠ "centro_treinamento_id" →
              atleta' !! k = atleta !! k) as Hframe.
    { intros k Hk Hn1 Hn2.
      destruct (decide (k = "categoria")) as [->|Hn3]; [done|].
      destruct (decide (k = "centro_treinamento")) as [->|Hn4]; [done|].
      rewrite Hplain by done. by apply lookup_union_r. }
    assert (atleta_up !! "categoria" = None → atleta_up !! "centro_treinamento" = None →
            atleta' = atleta_up ∪ atleta) as Hplain'.
    { intros Hc Hct. rewrite (setattr_items_plain atleta atleta_up Hc Hct) in Hset.
      by injection Hset. }
    split_and!.
    + exact Hframe.
    + intros Hc. by rewrite (Hfc Hk3), Hc.
    + intros Hct. by rewrite (Hfct Hk4), Hct.
    + by apply Hframe.
    + by apply Hframe.
    + intros Hc Hct _ _ k v Hk. rewrite (Hplain' Hc Hct).
      apply lookup_union_Some_raw. by left.
    + intros Hc Hct _ _ _ k v Hk. rewrite (Hplain' Hc Hct).
      apply lookup_union_Some_raw. by left.
    + intros Hvio.
      rewrite (violates_unique_cpf_ext _ _ _ (setattr_items_cpf _ _ _ Hset)) in Hv.
      congruence.
    + intros o Ho. rewrite (setattr_items_object atleta atleta_up o Ho) in Hset.
      discriminate.
Qed.

Lemma update_atleta_set_if_present_witness :
  ∃ atleta',
    atletas (run (update_atleta uuid_bruno weight_only) db2) !! 1%nat = Some atleta' ∧
    atleta' !! "weight" = Some (VFloat 80.5) ∧
    atleta' !! "height" = bruno_row !! "height" ∧
    atleta' !! "id" = bruno_row !! "id" ∧
    atleta' !! "creat_at" = bruno_row !! "creat_at".
Proof.
  destruct (update_atleta_set_if_present db2 uuid_bruno weight_only 1 bruno_row)
    as (atleta' & Hrow & Hkeep & _ & _ & Hid & Hcr & Hset & _).
  - exists weight_only. vm_compute. reflexivity.
  - vm_compute. reflexivity.
  - exists atleta'. split_and!; [exact Hrow | | | exact Hid | exact Hcr].
    + apply Hset; [reflexivity | reflexivity | vm_compute; reflexivity
                  | vm_compute; reflexivity | apply lookup_singleton_eq].
    + apply Hkeep; [by apply lookup_singleton_ne | done | done].
Defined.

Lemma update_cpf_counterexample :
  ¬ update_applies_request db2 uuid_bruno to_cpf_of_ana.
Proof.
  intros H. destruct (H 1%nat bruno_row) as (atleta' & Hrow & Hset & _).
  - vm_compute. reflexivity.
  - specialize (Hset "cpf" (VStr "11111111111") (lookup_singleton_eq _ _)).
    vm_compute in Hrow. injection Hrow as <-.
    vm_compute in Hset. discriminate Hset.
Qed.

(** ** Listing with filters *)

Lemma filter_filter_andb {A} (f g : A → bool) (l : list A) :
  List.filter g (List.filter f l) = List.filter (λ x, f x && g x) l.
Proof.
  induction l as [|x l IH]; [reflexivity|]. cbn [List.filter].
  destruct (f x); cbn [andb List.filter]; [destruct (g x)|]; by rewrite IH.
Qed.







(** ** The store keeps cpf unique *)

Lemma no_violation_no_holder (rows : list dict) row c j r :
  violates_unique_cpf rows row = false → cpf_of row = Some c →
  rows !! j = Some r → cpf_of r ≠ Some c.
Proof.
  unfold violates_unique_cpf. intros Hv Hc Hj Hr. rewrite Hc in Hv.
  apply bool_decide_eq_false in Hv. apply Hv, Exists_exists.
  exists r. split; [by eapply list_elem_of_lookup_2 | done].
Qed.

Lemma cpf_unique_add (rows : list dict) row :
  cpf_unique rows → violates_unique_cpf rows row = false →
  cpf_unique (rows ++ [row]).
Proof.
  intros Hu Hv i j r1 r2 c H1 H2 Hc1 Hc2.
  destruct (decide (i < length rows)) as [Hi|Hi];
    destruct (decide (j < length rows)) as [Hj|Hj].
  - rewrite lookup_app_l in H1, H2 by done. by eapply Hu.
  - rewrite lookup_app_l in H1 by done. rewrite lookup_app_r in H2 by lia.
    apply list_lookup_singleton_Some in H2 as [_ <-].
    by destruct (no_violation_no_holder _ _ _ _ _ Hv Hc2 H1).
  - rewrite lookup_app_l in H2 by done. rewrite lookup_app_r in H1 by lia.
    apply list_lookup_singleton_Some in H1 as [_ <-].
    by destruct (no_violation_no_holder _ _ _ _ _ Hv Hc1 H2).
  - rewrite lookup_app_r in H1, H2 by lia.
    apply list_lookup_singleton_Some in H1 as [? _].
    apply list_lookup_singleton_Some in H2 as [? _]. lia.
Qed.

Lemma lookup_delete_other (rows : list dict) i j r :
  rows !! j = Some r → j ≠ i → ∃ j', delete i rows !! j' = Some r.
Proof.
  intros Hj Hne. destruct (decide (j < i)) as [Hlt|Hge].
  - exists j. by rewrite list_lookup_delete_lt.
  - destruct j as [|j]; [lia|]. exists j. rewrite list_lookup_delete_ge by lia. done.
Qed.

Lemma cpf_unique_update (rows : list dict) i row :
  cpf_unique rows → violates_unique_cpf (delete i rows) row = false →
  cpf_unique (<[i:=row]> rows).
Proof.
  intros Hu Hv a b r1 r2 c H1 H2 Hc1 Hc2.
  rewrite list_lookup_insert in H1, H2.
  destruct (decide (i = a ∧ i < length rows)) as [[Hia Hlen]|Ha];
    destruct (decide (i = b ∧ i < length rows)) as [[Hib Hlen']|Hb].
  - congruence.
  - injection H1 as <-. subst a.
    assert (b ≠ i) as Hne by (intros ->; by apply Hb).
    destruct (lookup_delete_other _ i _ _ H2 Hne) as [j' Hj'].
    by destruct (no_violation_no_holder _ _ _ _ _ Hv Hc1 Hj').
  - injection H2 as <-. subst b.
    assert (a ≠ i) as Hne by (intros ->; by apply Ha).
    destruct (lookup_delete_other _ i _ _ H1 Hne) as [j' Hj'].
    by destruct (no_violation_no_holder _ _ _ _ _ Hv Hc2 Hj').
  - by eapply Hu.
Qed.

Lemma cpf_unique_delete (rows : list dict) i :
  cpf_unique rows → cpf_unique (delete i rows).
Proof.
  intros Hu a b r1 r2 c H1 H2 Hc1 Hc2.
  rewrite list_lookup_delete in H1, H2.
  pose proof (Hu _ _ _ _ _ H1 H2 Hc1 Hc2) as Heq.
  repeat case_decide; lia.
Qed.

(** Every handler takes a store with distinct cpfs to one with distinct
    cpfs, whatever it answers. *)
Lemma handlers_keep_cpf_unique db :
  cpf_unique (atletas db) →
  (∀ uuid4 now atleta_in, cpf_unique (atletas (run (post uuid4 now atleta_in) db))) ∧
  (∀ id atleta_up, cpf_unique (atletas (run (update_atleta id atleta_up) db))) ∧
  (∀ id, cpf_unique (atletas (run (delete_atleta id) db))) ∧
  (∀ id, run (query_atleta_by_id id) db = db).
Proof.
  intros Hu. split_and!.
  - intros uuid4 now atleta_in. unfold run.
    destruct (post uuid4 now atleta_in db) as [[out|e] db'] eqn:Hpost; cbn [snd].
    + apply post_Ok_inv in Hpost
        as (c & ct & _ & _ & _ & _ & _ & _ & _ & [_ Hv] & ->).
      cbn [atletas with_atletas]. by apply cpf_unique_add.
    + by apply post_Raise_inv in Hpost as ->.
  - intros id atleta_up.
    destruct (update_atleta_store db id atleta_up)
      as [->|(i & atleta & row & _ & _ & _ & Hv & Heq)]; [done|].
    unfold run. rewrite Heq. cbn. by apply cpf_unique_update.
  - intros id. unfold run, delete_atleta, mbind, M_bind, session.
    destruct (first_by_id _ _) as [[i atleta]|]; [|done].
    cbn. by apply cpf_unique_delete.
  - intros id. unfold run, query_atleta_by_id, mbind, M_bind, session.
    destruct (first_by_id _ _) as [[i atleta]|]; done.
Qed.

(** ** The name filter on the spec's own examples *)

Example ilike_Ana : nome_ilike Text.latin1_lower "%ana%" {[ "nome" := VStr "Ana" ]} = true.
Proof. vm_compute. reflexivity. Qed.

Example ilike_DIANA : nome_ilike Text.latin1_lower "%ana%" {[ "nome" := VStr "DIANA" ]} = true.
Proof. vm_compute. reflexivity. Qed.

Example ilike_anabela : nome_ilike Text.latin1_lower "%ana%" {[ "nome" := VStr "anabela" ]} = true.
Proof. vm_compute. reflexivity. Qed.

Example ilike_Bruno : nome_ilike Text.latin1_lower "%ana%" {[ "nome" := VStr "Bruno" ]} = false.
Proof. vm_compute. reflexivity. Qed.

(** An underscore in the filter stands for any character: the name
    need not contain one. *)
Example ilike_underscore :
  nome_ilike Text.latin1_lower "%_%" {[ "nome" := VStr "Bruno" ]} = true.
Proof. vm_compute. reflexivity. Qed.

(** Letters with an accent are folded too, and count as one character
    each. *)
Example ilike_accent :
  nome_ilike Text.latin1_lower "%zÉ%" {[ "nome" := VStr "Zé" ]} = true.
Proof. vm_compute. reflexivity. Qed.

Example ilike_one_character :
  nome_ilike Text.latin1_lower "_" {[ "nome" := VStr "é" ]} = true ∧
  nome_ilike Text.latin1_lower "__" {[ "nome" := VStr "é" ]} = false.
Proof. split; vm_compute; reflexivity. Qed.

(** ** The handlers on the inputs used above *)

(** Same cpf as Ana, unknown category: the category check answers. *)
Example second_create_unknown_category :
  post uuid_x 3000 ana_nope db1
  = (Raise (HTTPException HTTP_400_BAD_REQUEST "Categoria 'Nope' não encontrada"),
     db1).
Proof. vm_compute. reflexivity. Qed.

(** An update that names a category is answered with status 500,
    whether a reference row has the name or not. *)
Example update_category_status :
  status HTTP_200_OK (update_atleta uuid_bruno to_category_nope db2).1
  = HTTP_500_INTERNAL_SERVER_ERROR ∧
  status HTTP_200_OK
    (update_atleta uuid_bruno {[ "categoria" := named "Scale" ]} db2).1
  = HTTP_500_INTERNAL_SERVER_ERROR.
Proof. split; vm_compute; reflexivity. Qed.

(** A name with a NUL character in it: the commit raises an error that
    is not an [IntegrityError], [post] does not catch it, and nothing is
    stored. *)
Example create_nul_in_name :
  post uuid_carla 3000
    (<["nome" := VStr (String Ascii.zero "Carla")]>
       (body_of "Carla" "33333333333" "Scale" "CT King")) db2
  = (Raise (DBAPIError "invalid byte sequence for encoding UTF8: 0x00"), db2).
Proof. vm_compute. reflexivity. Qed.

(** An update of the weight to null passes validation and is refused by
    the store. *)
Example update_null_weight :
  route_update_atleta lax uuid_bruno {[ "weight" := VNone ]} db2
  = (Raise (IntegrityError "null value in column violates not-null constraint"),
     db2).
Proof. vm_compute. reflexivity. Qed.

(** An integer for the weight reaches the handler as a float. *)
Example update_integer_weight :
  atletas (run (route_update_atleta lax uuid_bruno {[ "weight" := VInt 80 ]}) db2)
    !! 1%nat
  = Some (<["weight" := VFloat 80]> bruno_row).
Proof. vm_compute. reflexivity. Qed.

(** An update to the cpf of another athlete is refused by the store, the
    error is not caught, and nothing is changed. *)
Example update_to_taken_cpf :
  update_atleta uuid_bruno to_cpf_of_ana db2
  = (Raise (IntegrityError unique_violation), db2).
Proof. vm_compute. reflexivity. Qed.

Example update_to_taken_cpf_status :
  status HTTP_200_OK (update_atleta uuid_bruno to_cpf_of_ana db2).1
  = HTTP_500_INTERNAL_SERVER_ERROR.
Proof. vm_compute. reflexivity. Qed.

(** A name filter of one underscore and an empty cpf filter both return
    the two stored athletes, where the spec's reading of the filters
    selects none. *)
Example list_underscore :
  query_all_atletas (Some "_") None db2 = for_each to_AtletaOut (atletas db2) db2 ∧
  ListAthletes (Some "_") None db2 = (Ok [], db2).
Proof. split; vm_compute; reflexivity. Qed.

Example list_empty_cpf :
  query_all_atletas None (Some "") db2 = for_each to_AtletaOut (atletas db2) db2 ∧
  ListAthletes None (Some "") db2 = (Ok [], db2).
Proof. split; vm_compute; reflexivity. Qed.

(** The record create returns for Ana. *)
Example create_ana :
  post uuid_ana 1000 ana db0 = (Ok ana_out, db1) ∧
  ana_out !! "creat_at" = Some (VDatetime 1000) ∧
  ana_out !! "created_at" = None.
Proof. split_and!; vm_compute; reflexivity. Qed.

(** * Further properties of the controller *)

(** ** Create: when it succeeds and what it stores *)








(** X2. The row a successful create stores holds what the response
    holds under every name but four: in place of the category and
    training-center objects, which it does not have, it has the keys of
    the reference rows the two names were resolved to. Those rows are in
    the reference tables, which the create leaves as they are, as it
    does every athlete stored before. *)
Theorem created_row db uuid4 now atleta_in out db' :
  post uuid4 now atleta_in db = (Ok out, db') →
  ∃ categoria centro row,
    db' = with_atletas db (atletas db ++ [row]) ∧
    categoria ∈ categorias db ∧
    attr2 atleta_in "categoria" "nome" = Ok (nome categoria) ∧
    centro ∈ centros_treinamento db ∧
    attr2 atleta_in "centro_treinamento" "nome" = Ok (nome centro) ∧
    row !! "categoria_id" = Some (VInt (pk_id categoria)) ∧
    row !! "centro_treinamento_id" = Some (VInt (pk_id centro)) ∧
    row !! "categoria" = None ∧
    row !! "centro_treinamento" = None ∧
    ∀ k, k ≠ "categoria" → k ≠ "centro_treinamento" →
         k ≠ "categoria_id" → k ≠ "centro_treinamento_id" →
         row !! k = out !! k.
Proof.
  rewrite post_eq.
  destruct (attr2 atleta_in "categoria" "nome") as [cat|]; [|discriminate].
  destruct (attr2 atleta_in "centro_treinamento" "nome") as [cen|]; [|discriminate].
  destruct (first_by_nome (categorias db) cat) as [categoria|] eqn:Hc; [|discriminate].
  destruct (first_by_nome (centros_treinamento db) cen) as [centro|] eqn:Hct;
    [|discriminate].
  destruct (keywords_of uuid4 now atleta_in) as [kw|]; [|discriminate].
  destruct (model_validate BaseSchemas.Config AtletaOut kw) as [out'|]; [|discriminate].
  destruct (rejects db _); [discriminate|].
  destruct (violates_unique_cpf _ _); [discriminate|].
  intros [= -> <-].
  apply first_by_nome_Some in Hc as [Hc <-].
  apply first_by_nome_Some in Hct as [Hct <-].
  exists categoria, centro, (atleta_model_of categoria centro out).
  split_and!; try done.
  - apply atleta_model_of_categoria_id.
  - apply atleta_model_of_centro_treinamento_id.
  - unfold atleta_model_of. rewrite !lookup_insert_ne by done.
    apply map_lookup_filter_None. right. intros v _ Hk. apply Hk. cbn. set_solver.
  - unfold atleta_model_of. rewrite !lookup_insert_ne by done.
    apply map_lookup_filter_None. right. intros v _ Hk. apply Hk. cbn. set_solver.
  - intros k ? ? ? ?. by apply atleta_model_of_lookup.
Qed.

Lemma created_row_witness :
  ∃ categoria centro row,
    db1 = with_atletas db0 (atletas db0 ++ [row]) ∧
    categoria ∈ categorias db0 ∧
    attr2 ana "categoria" "nome" = Ok (nome categoria) ∧
    centro ∈ centros_treinamento db0 ∧
    attr2 ana "centro_treinamento" "nome" = Ok (nome centro) ∧
    row !! "categoria_id" = Some (VInt (pk_id categoria)) ∧
    row !! "centro_treinamento_id" = Some (VInt (pk_id centro)) ∧
    row !! "categoria" = None ∧
    row !! "centro_treinamento" = None ∧
    ∀ k, k ≠ "categoria" → k ≠ "centro_treinamento" →
         k ≠ "categoria_id" → k ≠ "centro_treinamento_id" →
         row !! k = ana_out !! k.
Proof.
  apply (created_row db0 uuid_ana 1000 ana ana_out db1). vm_compute. reflexivity.
Defined.

(** X3. The record a successful create answers with is the input with
    two more fields: the identifier and the time stamp drawn for the
    call. Every field of the input, the category and training-center
    objects included, comes back as it was sent. *)
Theorem create_echoes_input db uuid4 now atleta_in out db' :
  post uuid4 now atleta_in db = (Ok out, db') →
  out !! "id" = Some (VUuid uuid4) ∧
  out !! "creat_at" = Some (VDatetime now) ∧
  ∀ k, k ≠ "id" → k ≠ "creat_at" → out !! k = atleta_in !! k.
Proof.
  intros (_ & _ & _ & _ & -> & _)%post_Ok_inv. split_and!.
  - apply lookup_insert_eq.
  - rewrite lookup_insert_ne by done. apply lookup_insert_eq.
  - intros k ? ?. by rewrite !lookup_insert_ne.
Qed.

Lemma create_echoes_input_witness :
  ana_out !! "id" = Some (VUuid uuid_ana) ∧
  ana_out !! "creat_at" = Some (VDatetime 1000) ∧
  ∀ k, k ≠ "id" → k ≠ "creat_at" → ana_out !! k = ana !! k.
Proof.
  apply (create_echoes_input db0 uuid_ana 1000 ana ana_out db1). vm_compute. reflexivity.
Defined.



(** ** The two reading handlers *)

Lemma for_each_to_AtletaOut_state rows db : (for_each to_AtletaOut rows db).2 = db.
Proof.
  induction rows as [|row rows IH]; [reflexivity|].
  cbn [for_each]. unfold mbind, M_bind at 1.
  destruct (to_AtletaOut row db) as [[out|e] db1] eqn:Hrow;
    pose proof (to_AtletaOut_state row db) as Hst; rewrite Hrow in Hst;
    cbn [snd] in Hst; subst db1; [|reflexivity].
  unfold M_bind at 1.
  destruct (for_each to_AtletaOut rows db) as [[outs|e] db2]; cbn [snd] in IH; subst db2;
    reflexivity.
Qed.

(** X5. Get by identifier and list never write: whatever the
    identifier or the filters, and whether they answer with records or
    with an error, the store after the call is the store before it. *)
Theorem reads_leave_store db id (nome cpf : option string) :
  (query_atleta_by_id id db).2 = db ∧ (query_all_atletas nome cpf db).2 = db.
Proof.
  split.
  - unfold query_atleta_by_id, mbind, M_bind, session.
    by destruct (first_by_id (atletas db) id) as [[i atleta]|].
  - unfold query_all_atletas, mbind, M_bind, session.
    apply for_each_to_AtletaOut_state.
Qed.

Lemma select_atletas_elem lc (nome cpf : option string) rows row :
  row ∈ select_atletas lc nome cpf rows → row ∈ rows.
Proof.
  unfold select_atletas.
  destruct (truthy nome); destruct (truthy cpf); intros H; try done.
  - apply list_elem_of_In, List.filter_In in H as [H _].
    apply List.filter_In in H as [H _]. by apply list_elem_of_In.
  - apply list_elem_of_In, List.filter_In in H as [H _]. by apply list_elem_of_In.
  - apply list_elem_of_In, List.filter_In in H as [H _]. by apply list_elem_of_In.
Qed.

Lemma uuid_field_inv v :
  check_field BaseSchemas.Config (field TUuid) v = true → ∃ u, v = VUuid u.
Proof. destruct v; cbn; try discriminate. eauto. Qed.

Lemma to_AtletaOut_id row db out db' :
  to_AtletaOut row db = (Ok out, db') →
  ∃ u, id_of row = Some u ∧ out !! "id" = Some (VUuid u).
Proof.
  intros (_ & Hok & ->)%to_AtletaOut_inv.
  assert (("id", field TUuid) ∈ AtletaOut) as Hin by in_schema.
  pose proof (fields_ok_field _ _ _ _ _ Hok Hin) as Hf.
  unfold field_ok in Hf. cbn [fst snd] in Hf.
  rewrite collect_lookup, decide_True by compute_done.
  rewrite getattr_plain in * by done. unfold id_of.
  destruct (row !! "id") as [v|]; [|discriminate].
  apply uuid_field_inv in Hf as [u ->]. eauto.
Qed.

Lemma first_by_id_unique (rows : list dict) m row u :
  id_unique rows → rows !! m = Some row → id_of row = Some u →
  first_by_id rows u = Some (m, row).
Proof.
  intros Hu Hm Hid. apply list_find_Some. split_and!; [done..|].
  intros j y Hj Hlt Hy. pose proof (Hu j m y row u Hj Hm Hy Hid). lia.
Qed.

(** X6. List and get agree: when no two stored athletes share an
    identifier, every record the list operation returns, under any
    filters, is the record get returns for that record's identifier. *)
Theorem list_agrees_with_get db (nome cpf : option string) outs db' out :
  id_unique (atletas db) →
  query_all_atletas nome cpf db = (Ok outs, db') →
  out ∈ outs →
  ∃ u, out !! "id" = Some (VUuid u) ∧ query_atleta_by_id u db = (Ok out, db).
Proof.
  intros Hu Hq Hin. unfold query_all_atletas, mbind, M_bind, session in Hq.
  apply for_each_to_AtletaOut_inv in Hq as [_ Hall].
  apply list_elem_of_lookup in Hin as [j Hj].
  destruct (Forall2_lookup_r _ _ _ _ _ Hall Hj) as (row & Hrow & Hout).
  apply list_elem_of_lookup_2, select_atletas_elem, list_elem_of_lookup in Hrow
    as [m Hm].
  destruct (to_AtletaOut_id _ _ _ _ Hout) as (u & Hid & Hoid).
  exists u. split; [exact Hoid|].
  unfold query_atleta_by_id, mbind, M_bind, session.
  by rewrite (first_by_id_unique _ _ _ _ Hu Hm Hid).
Qed.

Lemma atletas_db2 : atletas db2 = [ana_row; bruno_row].
Proof. vm_compute. reflexivity. Qed.

Lemma id_unique_two (a b : dict) ua ub :
  id_of a = Some ua → id_of b = Some ub → ua ≠ ub → id_unique [a; b].
Proof.
  intros Ha Hb Hne i j r1 r2 u H1 H2 Hu1 Hu2.
  destruct i as [|[|i]]; destruct j as [|[|j]]; cbn in H1, H2; simplify_eq;
    congruence.
Qed.

Lemma id_unique_db2 : id_unique (atletas db2).
Proof.
  rewrite atletas_db2. apply (id_unique_two _ _ uuid_ana uuid_bruno).
  - vm_compute. reflexivity.
  - vm_compute. reflexivity.
  - discriminate.
Qed.

Lemma list_agrees_with_get_witness :
  ∃ u, ana_listed !! "id" = Some (VUuid u) ∧
       query_atleta_by_id u db2 = (Ok ana_listed, db2).
Proof.
  apply (list_agrees_with_get db2 (Some "an") None
           (listed (Some "an") None db2) db2 ana_listed id_unique_db2).
  - vm_compute. reflexivity.
  - apply list_elem_of_lookup. exists 0%nat. vm_compute. reflexivity.
Defined.

(** ** Filters only restrict *)







(** ** The cpf filter *)

Lemma cpf_unique_tail r (rows : list dict) : cpf_unique (r :: rows) → cpf_unique rows.
Proof.
  intros Hu i j r1 r2 c H1 H2 Hc1 Hc2.
  pose proof (Hu (S i) (S j) r1 r2 c H1 H2 Hc1 Hc2). lia.
Qed.

Lemma filter_cpf_at_most_one (rows : list dict) c :
  cpf_unique rows → (length (List.filter (cpf_equals c) rows) ≤ 1)%nat.
Proof.
  induction rows as [|r rows IH]; intros Hu; [cbn; lia|].
  cbn [List.filter]. unfold cpf_equals at 1. case_bool_decide as Hr.
  - rewrite filter_cpf_none; [cbn; lia|].
    intros (r' & Hin & Hr')%Exists_exists.
    apply list_elem_of_lookup in Hin as [j Hj].
    pose proof (Hu 0 (S j) r r' c eq_refl Hj Hr Hr'). lia.
  - apply IH. by eapply cpf_unique_tail.
Qed.

Lemma filter_length_le {A} (f : A → bool) (l : list A) :
  (length (List.filter f l) ≤ length l)%nat.
Proof.
  induction l as [|x l IH]; [done|]. cbn [List.filter].
  destruct (f x); cbn [length]; lia.
Qed.

Lemma filter_comm {A} (f g : A → bool) (l : list A) :
  List.filter g (List.filter f l) = List.filter f (List.filter g l).
Proof.
  rewrite !filter_filter_andb. apply List.filter_ext. intros x. apply andb_comm.
Qed.

Lemma select_atletas_cpf lc (nome : option string) c rows :
  c ≠ "" →
  ∃ rows', select_atletas lc nome (Some c) rows
           = List.filter (cpf_equals c) rows' ∧
           (length (select_atletas lc nome (Some c) rows)
            ≤ length (List.filter (cpf_equals c) rows))%nat.
Proof.
  intros Hc. unfold select_atletas.
  assert (truthy (Some c) = true) as ->.
  { cbn. apply negb_true_iff. by apply String.eqb_neq. }
  cbn [default]. destruct (truthy nome).
  - eexists. split; [reflexivity|]. rewrite filter_comm. apply filter_length_le.
  - eexists. split; [reflexivity|]. done.
Qed.

Lemma to_AtletaOut_cpf row db out db' :
  to_AtletaOut row db = (Ok out, db') → out !! "cpf" = row !! "cpf".
Proof.
  intros (_ & _ & ->)%to_AtletaOut_inv.
  rewrite collect_lookup, decide_True by compute_done.
  by apply getattr_plain.
Qed.

(** X8. The cpf filter is exact. Every record listed under a given cpf
    filter carries that very cpf; and on a store whose cpfs are
    distinct, whatever the name filter, the listing holds one record at
    most. *)
Theorem cpf_filter_is_exact db (nome : option string) c outs db' :
  c ≠ "" →
  query_all_atletas nome (Some c) db = (Ok outs, db') →
  (∀ out, out ∈ outs → out !! "cpf" = Some (VStr c)) ∧
  (cpf_unique (atletas db) → (length outs ≤ 1)%nat).
Proof.
  intros Hc Hq. unfold query_all_atletas, mbind, M_bind, session in Hq.
  apply for_each_to_AtletaOut_inv in Hq as [_ Hall].
  destruct (select_atletas_cpf (lc_ctype db) nome c (atletas db) Hc)
    as (rows' & Hsel & Hlen).
  split.
  - intros out [j Hj]%list_elem_of_lookup.
    destruct (Forall2_lookup_r _ _ _ _ _ Hall Hj) as (row & Hrow & Hout).
    rewrite (to_AtletaOut_cpf _ _ _ _ Hout).
    rewrite Hsel in Hrow.
    apply list_elem_of_lookup_2, list_elem_of_In, List.filter_In in Hrow as [_ Hrow].
    unfold cpf_equals in Hrow. apply bool_decide_eq_true in Hrow.
    unfold cpf_of in Hrow. by destruct (row !! "cpf") as [[]|]; simplify_eq.
  - intros Hu. rewrite <- (Forall2_length _ _ _ Hall).
    pose proof (filter_cpf_at_most_one _ c Hu). lia.
Qed.

Lemma cpf_unique_two (a b : dict) ca cb :
  cpf_of a = Some ca → cpf_of b = Some cb → ca ≠ cb → cpf_unique [a; b].
Proof.
  intros Ha Hb Hne i j r1 r2 u H1 H2 Hu1 Hu2.
  destruct i as [|[|i]]; destruct j as [|[|j]]; cbn in H1, H2; simplify_eq;
    congruence.
Qed.

Lemma cpf_unique_db2 : cpf_unique (atletas db2).
Proof.
  rewrite atletas_db2. apply (cpf_unique_two _ _ "11111111111" "22222222222").
  - vm_compute. reflexivity.
  - vm_compute. reflexivity.
  - discriminate.
Qed.

Lemma cpf_filter_is_exact_witness :
  (∀ out, out ∈ listed None (Some "22222222222") db2 →
          out !! "cpf" = Some (VStr "22222222222")) ∧
  (length (listed None (Some "22222222222") db2) ≤ 1)%nat.
Proof.
  destruct (cpf_filter_is_exact db2 None "22222222222"
              (listed None (Some "22222222222") db2) db2) as [Hall Hlen].
  - discriminate.
  - vm_compute. reflexivity.
  - split; [exact Hall | exact (Hlen cpf_unique_db2)].
Defined.

(** ** Delete *)

Lemma delete_atleta_eq id db :
  delete_atleta id db =
  match first_by_id (atletas db) id with
  | None => (Raise (not_found id), db)
  | Some (i, _) => (Ok tt, with_atletas db (delete i (atletas db)))
  end.
Proof.
  unfold delete_atleta, mbind, M_bind, session.
  by destruct (first_by_id (atletas db) id) as [[i atleta]|].
Qed.

Lemma lookup_delete_inv (rows : list dict) i j r :
  delete i rows !! j = Some r → ∃ j', j' ≠ i ∧ rows !! j' = Some r.
Proof.
  rewrite list_lookup_delete.
  case_decide as Hd; intros Hr; eexists; (split; [|exact Hr]); lia.
Qed.

Lemma first_by_id_deleted (rows : list dict) id i atleta :
  id_unique rows → first_by_id rows id = Some (i, atleta) →
  first_by_id (delete i rows) id = None.
Proof.
  intros Hu (Hi & Hid & _)%list_find_Some.
  apply list_find_None, Forall_forall. intros r [j Hj]%list_elem_of_lookup Hr.
  apply lookup_delete_inv in Hj as (j' & Hne & Hj').
  apply Hne. by eapply Hu.
Qed.

(** X10. Delete removes the athlete for good. On a store whose
    identifiers are distinct, deleting an existing athlete answers
    without content, leaves one row less, and from then on get, update
    and delete on that identifier all answer 404. *)
Theorem delete_then_not_found db id i atleta atleta_up :
  id_unique (atletas db) →
  first_by_id (atletas db) id = Some (i, atleta) →
  ∃ db',
    delete_atleta id db = (Ok tt, db') ∧
    length (atletas db') + 1 = length (atletas db) ∧
    query_atleta_by_id id db' = (Raise (not_found id), db') ∧
    update_atleta id atleta_up db' = (Raise (not_found id), db') ∧
    delete_atleta id db' = (Raise (not_found id), db').
Proof.
  intros Hu Hf. exists (with_atletas db (delete i (atletas db))).
  pose proof (first_by_id_deleted _ _ _ _ Hu Hf) as Hnone.
  split; [by rewrite delete_atleta_eq, Hf|]. split.
  - cbn [atletas with_atletas]. apply list_find_Some in Hf as (Hi & _).
    rewrite length_delete by eauto. apply lookup_lt_Some in Hi. lia.
  - rewrite update_atleta_eq, delete_atleta_eq.
    unfold query_atleta_by_id, mbind, M_bind, session.
    cbn [atletas with_atletas]. by rewrite Hnone.
Qed.

Lemma delete_then_not_found_witness :
  ∃ db',
    delete_atleta uuid_bruno db2 = (Ok tt, db') ∧
    length (atletas db') + 1 = length (atletas db2) ∧
    query_atleta_by_id uuid_bruno db' = (Raise (not_found uuid_bruno), db') ∧
    update_atleta uuid_bruno weight_only db' = (Raise (not_found uuid_bruno), db') ∧
    delete_atleta uuid_bruno db' = (Raise (not_found uuid_bruno), db').
Proof.
  apply (delete_then_not_found db2 uuid_bruno 1 bruno_row weight_only id_unique_db2).
  vm_compute. reflexivity.
Defined.

Lemma first_by_id_after_delete (rows : list dict) id i atleta id' :
  first_by_id rows id = Some (i, atleta) → id' ≠ id →
  snd <$> first_by_id (delete i rows) id' = snd <$> first_by_id rows id'.
Proof.
  intros (Hi & Hid & _)%list_find_Some Hne.
  destruct (first_by_id rows id') as [[j r]|] eqn:Hf.
  - apply list_find_Some in Hf as (Hj & Hr & Hmin).
    assert (j ≠ i) as Hji by (intros ->; congruence).
    assert (first_by_id (delete i rows) id'
            = Some (if decide (j < i) then j else pred j, r)) as ->; [|done].
    apply list_find_Some. split_and!; [|done|].
    + rewrite list_lookup_delete. repeat case_decide; try lia; try done.
      by replace (S (pred j)) with j by lia.
    + intros k y Hk Hlt. rewrite list_lookup_delete in Hk.
      apply (Hmin _ _ Hk). repeat case_decide; lia.
  - apply list_find_None in Hf.
    assert (first_by_id (delete i rows) id' = None) as ->; [|done].
    by apply list_find_None, Forall_delete.
Qed.

(** X11. Delete touches one athlete only. After an existing athlete is
    deleted, get on any other identifier answers exactly as it did
    before, and the reference tables are as they were. *)
Theorem delete_keeps_the_others db id i atleta id' :
  first_by_id (atletas db) id = Some (i, atleta) →
  id' ≠ id →
  (query_atleta_by_id id' (run (delete_atleta id) db)).1
  = (query_atleta_by_id id' db).1 ∧
  categorias (run (delete_atleta id) db) = categorias db ∧
  centros_treinamento (run (delete_atleta id) db) = centros_treinamento db.
Proof.
  intros Hf Hne. unfold run. rewrite delete_atleta_eq, Hf. cbn [snd].
  split; [|done].
  pose proof (first_by_id_after_delete _ _ _ _ _ Hf Hne) as Hsame.
  unfold query_atleta_by_id, mbind, M_bind, session. cbn [atletas with_atletas].
  destruct (first_by_id (delete i (atletas db)) id') as [[j r]|];
    destruct (first_by_id (atletas db) id') as [[j' r']|]; cbn in Hsame;
    simplify_eq; reflexivity.
Qed.

Lemma delete_keeps_the_others_witness :
  (query_atleta_by_id uuid_ana (run (delete_atleta uuid_bruno) db2)).1
  = (query_atleta_by_id uuid_ana db2).1 ∧
  categorias (run (delete_atleta uuid_bruno) db2) = categorias db2 ∧
  centros_treinamento (run (delete_atleta uuid_bruno) db2) = centros_treinamento db2.
Proof.
  apply (delete_keeps_the_others db2 uuid_bruno 1 bruno_row uuid_ana).
  - vm_compute. reflexivity.
  - discriminate.
Defined.

(** ** Update: how it composes *)

Lemma with_atletas_same db : with_atletas db (atletas db) = db.
Proof. by destruct db. Qed.

(** X12. An update without fields is a get. On a store whose cpfs are
    distinct, an update whose request sets nothing answers exactly as
    get does for that identifier, the 404 included, and leaves the store
    as it was. *)
Theorem update_nothing_is_get db id :
  cpf_unique (atletas db) →
  update_atleta id ∅ db = query_atleta_by_id id db.
Proof.
  intros Hu. rewrite update_atleta_eq.
  unfold query_atleta_by_id, mbind, M_bind, session.
  destruct (first_by_id (atletas db) id) as [[i atleta]|] eqn:Hf; [|done].
  rewrite setattr_items_empty, bool_decide_eq_true_2 by apply dom_empty_L.
  reflexivity.
Qed.

Lemma update_nothing_is_get_witness :
  update_atleta uuid_bruno ∅ db2 = query_atleta_by_id uuid_bruno db2.
Proof. apply (update_nothing_is_get db2 uuid_bruno cpf_unique_db2). Defined.

Lemma first_by_id_replaced (rows : list dict) id i atleta row :
  first_by_id rows id = Some (i, atleta) → id_of row = Some id →
  first_by_id (<[i:=row]> rows) id = Some (i, row).
Proof.
  intros (Hi & Hid & Hmin)%list_find_Some Hrow.
  apply list_find_Some. split_and!; [|done|].
  - apply list_lookup_insert_eq. by eapply lookup_lt_Some.
  - intros j y Hj Hlt. rewrite list_lookup_insert_ne in Hj by lia. by eapply Hmin.
Qed.

Lemma update_keeps_id (atleta_up atleta row : dict) :
  instance_of AtletaUpdate atleta_up →
  setattr_items atleta atleta_up = Ok row → id_of row = id_of atleta.
Proof.
  intros [Hdom _]%instance_of_inv Hset. unfold id_of.
  pose proof (setattr_items_spec atleta atleta_up) as Hs. rewrite Hset in Hs.
  destruct Hs as (_ & Hplain & _). rewrite Hplain by done.
  rewrite lookup_union_r; [done|].
  eapply not_field_None; [exact Hdom | compute_done].
Qed.

(** The loop run again on its own result changes nothing. *)
Lemma setattr_items_idem (atleta_up atleta row : dict) :
  instance_of AtletaUpdate atleta_up →
  setattr_items atleta atleta_up = Ok row →
  setattr_items row atleta_up = Ok row.
Proof.
  intros [Hdom _]%instance_of_inv Hset.
  assert (atleta_up !! "categoria_id" = None) as Hk1
    by (eapply not_field_None; [exact Hdom | compute_done]).
  assert (atleta_up !! "centro_treinamento_id" = None) as Hk2
    by (eapply not_field_None; [exact Hdom | compute_done]).
  pose proof (setattr_items_spec atleta atleta_up) as Hs. rewrite Hset in Hs.
  destruct Hs as (Hnone & Hplain & Hc & Hct & Hfc & Hfct).
  pose proof (setattr_items_spec row atleta_up) as Hs'.
  destruct (setattr_items row atleta_up) as [row'|e].
  2:{ destruct Hs' as (_ & v & Hv & Hin). by specialize (Hnone v Hin). }
  destruct Hs' as (_ & Hplain' & Hc' & Hct' & Hfc' & Hfct').
  f_equal. apply map_eq. intros k.
  destruct (decide (k = "categoria")) as [->|H1]; [done|].
  destruct (decide (k = "centro_treinamento")) as [->|H2]; [done|].
  destruct (decide (k = "categoria_id")) as [->|H3].
  { rewrite (Hfc' Hk1), (Hfc Hk1). by destruct (atleta_up !! "categoria"). }
  destruct (decide (k = "centro_treinamento_id")) as [->|H4].
  { rewrite (Hfct' Hk2), (Hfct Hk2). by destruct (atleta_up !! "centro_treinamento"). }
  rewrite Hplain' by done. rewrite lookup_union, Hplain by done.
  rewrite lookup_union. by destruct (atleta_up !! k), (atleta !! k).
Qed.

(** X13. Get after update returns what update returned: when an update
    answers with a record, a get on the same identifier right after it
    answers with that same record and leaves the store as it is. *)
Theorem get_after_update db id atleta_up out db' :
  instance_of AtletaUpdate atleta_up →
  update_atleta id atleta_up db = (Ok out, db') →
  query_atleta_by_id id db' = (Ok out, db').
Proof.
  intros Hinst. rewrite update_atleta_eq.
  destruct (first_by_id (atletas db) id) as [[i atleta]|] eqn:Hf; [|discriminate].
  destruct (setattr_items atleta atleta_up) as [row|] eqn:Hset; [|discriminate].
  case_bool_decide.
  { intros [= Hout <-].
    unfold query_atleta_by_id, mbind, M_bind, session. rewrite Hf.
    unfold to_AtletaOut. by rewrite Hout. }
  destruct (rejects db row); [discriminate|].
  destruct (violates_unique_cpf _ _); [discriminate|].
  cbn zeta. intros [= Hout <-].
  unfold query_atleta_by_id, mbind, M_bind, session. cbn [atletas with_atletas].
  rewrite (first_by_id_replaced _ _ _ _ row Hf).
  - unfold to_AtletaOut. by rewrite Hout.
  - rewrite (update_keeps_id _ _ _ Hinst Hset).
    by apply list_find_Some in Hf as (_ & ? & _).
Qed.

Lemma get_after_update_witness :
  query_atleta_by_id uuid_bruno db2_weight = (Ok bruno_updated, db2_weight).
Proof.
  apply (get_after_update db2 uuid_bruno weight_only bruno_updated db2_weight).
  - exists weight_only. vm_compute. reflexivity.
  - vm_compute. reflexivity.
Defined.

Lemma list_delete_insert {A} (l : list A) i x : delete i (<[i:=x]> l) = delete i l.
Proof.
  revert i. induction l as [|y l IH]; intros [|i]; try reflexivity.
  cbn. f_equal. apply IH.
Qed.

(** X14. Update is idempotent: sending the same partial update a second
    time leaves the store exactly as the first one left it. *)
Theorem update_twice_is_update_once db id atleta_up :
  instance_of AtletaUpdate atleta_up →
  run (update_atleta id atleta_up) (run (update_atleta id atleta_up) db)
  = run (update_atleta id atleta_up) db.
Proof.
  intros Hinst.
  destruct (update_atleta_store db id atleta_up)
    as [Heq|(i & atleta & row & Hf & Hset & Hr & Hv & Heq)].
  { by rewrite !Heq. }
  unfold run at 2 3. rewrite Heq. cbn [snd].
  unfold run. rewrite update_atleta_eq. cbn [atletas with_atletas rejects].
  rewrite (first_by_id_replaced _ _ _ _ row Hf).
  2:{ rewrite (update_keeps_id _ _ _ Hinst Hset).
      by apply list_find_Some in Hf as (_ & ? & _). }
  rewrite (setattr_items_idem _ _ _ Hinst Hset).
  case_bool_decide; [reflexivity|].
  rewrite Hr, list_delete_insert, Hv.
  cbn zeta. cbn [snd]. unfold with_atletas.
  cbn [categorias centros_treinamento rejects lc_ctype].
  by rewrite list_insert_insert_eq.
Qed.

Lemma update_twice_is_update_once_witness :
  run (update_atleta uuid_bruno weight_only) (run (update_atleta uuid_bruno weight_only) db2)
  = run (update_atleta uuid_bruno weight_only) db2.
Proof.
  apply (update_twice_is_update_once db2 uuid_bruno weight_only).
  exists weight_only. vm_compute. reflexivity.
Defined.

(** X15. Update touches one athlete only. Whatever it answers, an update
    leaves the number of athletes, every row but the one it found, and
    both reference tables as they were. *)
Theorem update_touches_one_row db id atleta_up i atleta :
  first_by_id (atletas db) id = Some (i, atleta) →
  length (atletas (run (update_atleta id atleta_up) db)) = length (atletas db) ∧
  (∀ j, j ≠ i →
        atletas (run (update_atleta id atleta_up) db) !! j = atletas db !! j) ∧
  categorias (run (update_atleta id atleta_up) db) = categorias db ∧
  centros_treinamento (run (update_atleta id atleta_up) db) = centros_treinamento db.
Proof.
  intros Hf.
  destruct (update_atleta_store db id atleta_up)
    as [->|(i' & atleta' & row & Hf' & _ & _ & _ & Heq)]; [done|].
  rewrite Hf in Hf'. injection Hf' as <- <-.
  unfold run. rewrite Heq. cbn.
  split_and!; [apply length_insert | | done..].
  intros j Hj. by apply list_lookup_insert_ne.
Qed.

Lemma update_touches_one_row_witness :
  length (atletas (run (update_atleta uuid_bruno weight_only) db2)) = length (atletas db2) ∧
  (∀ j, j ≠ 1%nat →
        atletas (run (update_atleta uuid_bruno weight_only) db2) !! j
        = atletas db2 !! j) ∧
  categorias (run (update_atleta uuid_bruno weight_only) db2) = categorias db2 ∧
  centros_treinamento (run (update_atleta uuid_bruno weight_only) db2)
  = centros_treinamento db2.
Proof.
  apply (update_touches_one_row db2 uuid_bruno weight_only 1 bruno_row).
  vm_compute. reflexivity.
Defined.

(** ** What the writing handlers keep *)

(** X16. The writing handlers keep cpf unique. From a store whose
    athletes have distinct cpfs, create, update and delete each lead to
    a store whose athletes have distinct cpfs, whatever the request and
    whatever the answer. *)
Theorem writes_keep_cpf_unique db uuid4 now atleta_in id atleta_up :
  cpf_unique (atletas db) →
  cpf_unique (atletas (run (post uuid4 now atleta_in) db)) ∧
  cpf_unique (atletas (run (update_atleta id atleta_up) db)) ∧
  cpf_unique (atletas (run (delete_atleta id) db)).
Proof.
  intros Hu. destruct (handlers_keep_cpf_unique db Hu) as (Hp & Hup & Hd & _).
  split_and!; [apply Hp | apply Hup | apply Hd].
Qed.

Lemma writes_keep_cpf_unique_witness :
  cpf_unique (atletas (run (post uuid_x 3000 ana) db2)) ∧
  cpf_unique (atletas (run (update_atleta uuid_bruno to_cpf_of_ana) db2)) ∧
  cpf_unique (atletas (run (delete_atleta uuid_bruno) db2)).
Proof.
  apply (writes_keep_cpf_unique db2 uuid_x 3000 ana uuid_bruno to_cpf_of_ana cpf_unique_db2).
Defined.

Lemma id_unique_add (rows : list dict) row u :
  id_unique rows → first_by_id rows u = None → id_of row = Some u →
  id_unique (rows ++ [row]).
Proof.
  intros Hu Hnone Hid i j r1 r2 v H1 H2 Hv1 Hv2.
  apply first_by_id_None in Hnone. rewrite Forall_forall in Hnone.
  destruct (decide (i < length rows)) as [Hi|Hi];
    destruct (decide (j < length rows)) as [Hj|Hj].
  - rewrite lookup_app_l in H1, H2 by done. by eapply Hu.
  - rewrite lookup_app_l in H1 by done. rewrite lookup_app_r in H2 by lia.
    apply list_lookup_singleton_Some in H2 as [_ <-].
    apply list_elem_of_lookup_2 in H1. destruct (Hnone _ H1). congruence.
  - rewrite lookup_app_l in H2 by done. rewrite lookup_app_r in H1 by lia.
    apply list_lookup_singleton_Some in H1 as [_ <-].
    apply list_elem_of_lookup_2 in H2. destruct (Hnone _ H2). congruence.
  - rewrite lookup_app_r in H1, H2 by lia.
    apply list_lookup_singleton_Some in H1 as [? _].
    apply list_lookup_singleton_Some in H2 as [? _]. lia.
Qed.

Lemma id_unique_replace (rows : list dict) i atleta row :
  id_unique rows → rows !! i = Some atleta → id_of row = id_of atleta →
  id_unique (<[i:=row]> rows).
Proof.
  intros Hu Hi Hsame a b r1 r2 v H1 H2 Hv1 Hv2.
  rewrite list_lookup_insert in H1, H2.
  destruct (decide (i = a ∧ i < length rows)) as [[Hia _]|Ha];
    destruct (decide (i = b ∧ i < length rows)) as [[Hib _]|Hb].
  - congruence.
  - injection H1 as <-. subst a. rewrite Hsame in Hv1. by eapply Hu.
  - injection H2 as <-. subst b. rewrite Hsame in Hv2. by eapply Hu.
  - by eapply Hu.
Qed.

Lemma id_unique_delete (rows : list dict) i : id_unique rows → id_unique (delete i rows).
Proof.
  intros Hu a b r1 r2 v H1 H2 Hv1 Hv2.
  rewrite list_lookup_delete in H1, H2.
  pose proof (Hu _ _ _ _ _ H1 H2 Hv1 Hv2) as Heq.
  repeat case_decide; lia.
Qed.

(** X17. Identifiers stay distinct. From a store whose athletes have
    distinct identifiers, a create that draws an identifier no stored
    athlete carries, an update by a valid request, and a delete each
    lead to a store whose athletes have distinct identifiers. *)
Theorem writes_keep_id_unique db uuid4 now atleta_in id atleta_up :
  id_unique (atletas db) →
  (first_by_id (atletas db) uuid4 = None →
   id_unique (atletas (run (post uuid4 now atleta_in) db))) ∧
  (instance_of AtletaUpdate atleta_up →
   id_unique (atletas (run (update_atleta id atleta_up) db))) ∧
  id_unique (atletas (run (delete_atleta id) db)).
Proof.
  intros Hu. split_and!.
  - intros Hfresh. unfold run.
    destruct (post uuid4 now atleta_in db) as [[out|e] db'] eqn:Hpost; cbn [snd].
    + apply post_Ok_inv in Hpost as (c & ct & _ & _ & Hout & _ & _ & _ & _ & _ & ->).
      cbn [atletas with_atletas]. apply (id_unique_add _ _ uuid4); [done..|].
      unfold id_of. rewrite atleta_model_of_lookup by done.
      by rewrite Hout, lookup_insert_eq.
    + by apply post_Raise_inv in Hpost as ->.
  - intros Hinst.
    destruct (update_atleta_store db id atleta_up)
      as [->|(i & atleta & row & Hf & Hset & _ & _ & Heq)]; [done|].
    unfold run. rewrite Heq. cbn.
    apply list_find_Some in Hf as (Hi & _).
    apply (id_unique_replace _ _ atleta); [done..|]. by eapply update_keeps_id.
  - unfold run. rewrite delete_atleta_eq.
    destruct (first_by_id _ _) as [[i atleta]|]; [|done].
    cbn. by apply id_unique_delete.
Qed.

Lemma writes_keep_id_unique_witness :
  id_unique (atletas (run (post uuid_x 3000
                             (body_of "Carla" "33333333333" "Scale" "CT King")) db2)) ∧
  id_unique (atletas (run (update_atleta uuid_bruno weight_only) db2)) ∧
  id_unique (atletas (run (delete_atleta uuid_bruno) db2)).
Proof.
  destruct (writes_keep_id_unique db2 uuid_x 3000
              (body_of "Carla" "33333333333" "Scale" "CT King")
              uuid_bruno weight_only id_unique_db2) as (Hp & Hup & Hd).
  split_and!; [apply Hp | apply Hup | exact Hd].
  - vm_compute. reflexivity.
  - exists weight_only. vm_compute. reflexivity.
Defined.



(** ** The schema base classes *)

(** X20. Every schema that takes [OutMixin]'s fields gives its instances
    an identifier and a creation time stamp: an instance of such a
    schema has an [id] that is a UUID and a [creat_at] that is a date
    and time, whatever the other fields are. *)
Theorem OutMixin_instance (sch : schema) inst :
  instance_of (sch ++ OutMixin) inst →
  ∃ u t, inst !! "id" = Some (VUuid u) ∧ inst !! "creat_at" = Some (VDatetime t).
Proof.
  intros [_ Hok]%instance_of_inv.
  rewrite fields_ok_app in Hok. apply andb_true_iff in Hok as [_ Hok].
  unfold fields_ok, OutMixin, field_ok in Hok. cbn [forallb fst snd] in Hok.
  rewrite andb_true_r in Hok. apply andb_true_iff in Hok as [Hid Hcr].
  destruct (inst !! "id") as [v1|]; [|discriminate].
  destruct (inst !! "creat_at") as [v2|]; [|discriminate].
  apply uuid_field_inv in Hid as [u ->].
  apply datetime_is_datetime in Hcr as [t ->]. eauto.
Qed.

Lemma OutMixin_instance_witness :
  ∃ u t, ana_out !! "id" = Some (VUuid u) ∧ ana_out !! "creat_at" = Some (VDatetime t).
Proof.
  apply (OutMixin_instance Atleta ana_out).
  exists ana_out. vm_compute. reflexivity.
Defined.

(** ** What the answers show *)

Lemma relationship_inv (table : list NamedRow) fk v :
  relationship table fk = Some v →
  check_field BaseSchemas.Config (nested [("nome", TStr)]) v = true →
  ∃ r, r ∈ table ∧ fk = Some (VInt (pk_id r)) ∧ v = named (nome r).
Proof.
  unfold relationship. intros Hrel Hok.
  destruct fk as [[| |k| | | |]|]; simplify_eq; try discriminate.
  destruct (list_find _ table) as [[i r]|] eqn:Hf; simplify_eq; try discriminate.
  apply list_find_Some in Hf as (Hi & <- & _).
  exists r. split_and!; [by eapply list_elem_of_lookup_2 | done..].
Qed.

(** X21. Get returns what is stored. When get answers with a record,
    the athlete it found holds, under every field name but the two
    objects, the value the record shows; the category and the
    training-center objects of the record are the names of the reference
    rows that the athlete's two foreign keys point to. *)
Theorem get_returns_stored db id out db' :
  query_atleta_by_id id db = (Ok out, db') →
  ∃ i row categoria centro,
    first_by_id (atletas db) id = Some (i, row) ∧
    (∀ k, k ≠ "categoria" → k ≠ "centro_treinamento" → k ∈ AtletaOut.*1 →
          out !! k = row !! k) ∧
    categoria ∈ categorias db ∧
    row !! "categoria_id" = Some (VInt (pk_id categoria)) ∧
    out !! "categoria" = Some (named (nome categoria)) ∧
    centro ∈ centros_treinamento db ∧
    row !! "centro_treinamento_id" = Some (VInt (pk_id centro)) ∧
    out !! "centro_treinamento" = Some (named (nome centro)).
Proof.
  unfold query_atleta_by_id, mbind, M_bind, session.
  destruct (first_by_id (atletas db) id) as [[i row]|] eqn:Hf; [|discriminate].
  intros (_ & Hok & ->)%to_AtletaOut_inv.
  assert (("categoria", nested [("nome", TStr)]) ∈ AtletaOut) as H1 by in_schema.
  assert (("centro_treinamento", nested [("nome", TStr)]) ∈ AtletaOut) as H2
    by in_schema.
  apply (fields_ok_field _ _ _ _ _ Hok) in H1, H2.
  unfold field_ok in H1, H2. cbn [fst snd] in H1, H2.
  destruct (getattr db row "categoria") as [v1|] eqn:Hg1; [|discriminate].
  destruct (getattr db row "centro_treinamento") as [v2|] eqn:Hg2; [|discriminate].
  destruct (relationship_inv _ _ _ Hg1 H1) as (categoria & Hc & Hfk1 & ->).
  destruct (relationship_inv _ _ _ Hg2 H2) as (centro & Hct & Hfk2 & ->).
  exists i, row, categoria, centro. split_and!; try done.
  - intros k Hk1 Hk2 Hk. rewrite collect_lookup, decide_True by done.
    by apply getattr_plain.
  - by rewrite collect_lookup, decide_True by compute_done.
  - by rewrite collect_lookup, decide_True by compute_done.
Qed.

Lemma get_returns_stored_witness :
  ∃ i row categoria centro,
    first_by_id (atletas db1) uuid_ana = Some (i, row) ∧
    (∀ k, k ≠ "categoria" → k ≠ "centro_treinamento" → k ∈ AtletaOut.*1 →
          ana_listed !! k = row !! k) ∧
    categoria ∈ categorias db1 ∧
    row !! "categoria_id" = Some (VInt (pk_id categoria)) ∧
    ana_listed !! "categoria" = Some (named (nome categoria)) ∧
    centro ∈ centros_treinamento db1 ∧
    row !! "centro_treinamento_id" = Some (VInt (pk_id centro)) ∧
    ana_listed !! "centro_treinamento" = Some (named (nome centro)).
Proof.
  apply (get_returns_stored db1 uuid_ana ana_listed db1). vm_compute. reflexivity.
Defined.

(** X22. The answer of an update shows the update. When an update
    answers with a record, that record holds, under every field name but
    the two objects, the value the request supplied or, for a field the
    request left out, the value that was stored. *)
Theorem update_answer_shows_update db id atleta_up i atleta out db' :
  first_by_id (atletas db) id = Some (i, atleta) →
  update_atleta id atleta_up db = (Ok out, db') →
  ∀ k, k ≠ "categoria" → k ≠ "centro_treinamento" → k ∈ AtletaOut.*1 →
    (∀ v, atleta_up !! k = Some v → out !! k = Some v) ∧
    (atleta_up !! k = None → out !! k = atleta !! k).
Proof.
  intros Hf. rewrite update_atleta_eq, Hf.
  destruct (setattr_items atleta atleta_up) as [row|] eqn:Hset; [|discriminate].
  pose proof (setattr_items_spec atleta atleta_up) as Hs. rewrite Hset in Hs.
  destruct Hs as (_ & Hplain & _).
  case_bool_decide as Hdom.
  { intros Hup k Hk1 Hk2 Hk.
    change (to_AtletaOut atleta db = (Ok out, db')) in Hup.
    apply to_AtletaOut_inv in Hup as (_ & _ & ->).
    rewrite collect_lookup, decide_True by done. rewrite getattr_plain by done.
    apply dom_empty_iff_L in Hdom. subst atleta_up.
    split; [intros v Hv; by rewrite lookup_empty in Hv | done]. }
  destruct (rejects db row); [discriminate|].
  destruct (violates_unique_cpf _ _); [discriminate|]. cbn zeta.
  intros Hup k Hk1 Hk2 Hk.
  change (to_AtletaOut row (with_atletas db (<[i:=row]> (atletas db))) = (Ok out, db'))
    in Hup.
  apply to_AtletaOut_inv in Hup as (_ & _ & ->).
  rewrite collect_lookup, decide_True by done. rewrite getattr_plain by done.
  rewrite Hplain; [|done|done|intros ->; revert Hk; compute_done..].
  split.
  - intros v Hv. apply lookup_union_Some_raw. by left.
  - intros Hnone. by apply lookup_union_r.
Qed.

Lemma update_answer_shows_update_witness :
  (∀ v, weight_only !! "weight" = Some v → bruno_updated !! "weight" = Some v) ∧
  (weight_only !! "weight" = None → bruno_updated !! "weight" = bruno_row !! "weight").
Proof.
  apply (update_answer_shows_update db2 uuid_bruno weight_only 1 bruno_row
           bruno_updated db2_weight).
  - vm_compute. reflexivity.
  - vm_compute. reflexivity.
  - done.
  - done.
  - compute_done.
Defined.

(** ** Create, then list *)

Lemma stored_row_reads_back db categoria centro out rows :
  categoria ∈ categorias db → centro ∈ centros_treinamento db →
  dom out ⊆ field_names AtletaOut →
  fields_ok BaseSchemas.Config AtletaOut (λ k, out !! k) = true →
  ∃ got,
    to_AtletaOut (atleta_model_of categoria centro out) (with_atletas db rows)
    = (Ok got, with_atletas db rows) ∧
    ∀ k, k ≠ "categoria" → k ≠ "centro_treinamento" → got !! k = out !! k.
Proof.
  intros Hc Hct Hdom Hok.
  unfold to_AtletaOut, model_validate_obj. cbn [from_attributes BaseSchemas.Config].
  rewrite read_fields_eq.
  rewrite (stored_row_fields_ok _ categoria centro out) by done.
  eexists. split; [reflexivity|].
  intros k Hk1 Hk2. rewrite collect_lookup. case_decide as Hk.
  - rewrite getattr_plain by done. apply atleta_model_of_lookup; try done.
    + intros ->. revert Hk. compute_done.
    + intros ->. revert Hk. compute_done.
  - symmetry. by eapply not_field_None.
Qed.

(** X23. A created athlete is found by cpf. Right after a successful
    create whose input carries a cpf that is not empty, the listing
    under that cpf filter returns one record and no more, and it is the
    record create returned in every field but the category and
    training-center objects. *)
Theorem list_by_cpf_after_create db uuid4 now atleta_in out db' c :
  post uuid4 now atleta_in db = (Ok out, db') →
  cpf_of atleta_in = Some c → c ≠ "" →
  ∃ got,
    query_all_atletas None (Some c) db' = (Ok [got], db') ∧
    ∀ k, k ≠ "categoria" → k ≠ "centro_treinamento" → got !! k = out !! k.
Proof.
  intros Hpost Hcpf Hc.
  apply post_Ok_inv in Hpost
    as (categoria & centro & Hin1 & Hin2 & Hout & _ & _ & Hdom & Hok & [_ Hv] & ->).
  destruct (stored_row_reads_back db categoria centro out
              (atletas db ++ [atleta_model_of categoria centro out]))
    as (got & Hgot & Hsame); try done.
  exists got. split; [|done].
  assert (cpf_of (atleta_model_of categoria centro out) = Some c) as Hrow.
  { rewrite Hout, cpf_of_stored. done. }
  unfold query_all_atletas, mbind, M_bind at 1, session. cbn [atletas with_atletas].
  unfold select_atletas.
  assert (truthy (Some c) = true) as ->.
  { cbn. apply negb_true_iff. by apply String.eqb_neq. }
  cbn [truthy]. change (default "" (Some c)) with c. rewrite List.filter_app.
  unfold violates_unique_cpf in Hv. rewrite Hrow in Hv.
  apply bool_decide_eq_false in Hv. rewrite (filter_cpf_none _ _ Hv).
  cbn [List.filter app]. unfold cpf_equals at 1.
  rewrite bool_decide_eq_true_2 by done.
  cbn [for_each]. unfold mbind, M_bind at 1. rewrite Hgot. reflexivity.
Qed.

Lemma list_by_cpf_after_create_witness :
  ∃ got,
    query_all_atletas None (Some "11111111111") db1 = (Ok [got], db1) ∧
    ∀ k, k ≠ "categoria" → k ≠ "centro_treinamento" → got !! k = ana_out !! k.
Proof.
  apply (list_by_cpf_after_create db0 uuid_ana 1000 ana ana_out db1 "11111111111").
  - vm_compute. reflexivity.
  - vm_compute. reflexivity.
  - discriminate.
Defined.
